(** * Instagram multi-tenant webhook agent: tenant directory, quota tracker,
      event router and policy handlers

    A shallow embedding of [models.py], [client_manager.py], [handlers.py],
    [instagram_api.py] and the webhook and send routes of [app.py].

    Conventions of the embedding:
    - a Python [str] is a [string] holding its UTF-8 bytes; [sub in s] on
      two valid UTF-8 strings is the same test on bytes as on code points;
    - [str.lower] is Python's builtin and is taken from the environment
      ([str_lower]);
    - a parsed JSON payload is a [json] value, with the dynamic checks of the
      operators the routes apply to it ([in], [.get], [[...]], [for], truth
      value) written out, each raising the Python exception it raises;
    - the SQLAlchemy session is an explicit store, every mutation of the
      source being followed by its [commit]; a [datetime] is a number of
      seconds since the epoch and [.date()] the number of whole days;
    - [datetime.utcnow()] and the Graph API are oracles of the environment:
      the n-th reading of the clock, and the outcome of a request given the
      requests made before it. *)

From Stdlib Require Import ZArith List String Ascii Bool Lia.
Import ListNotations.
Local Open Scope string_scope.
Local Open Scope Z_scope.
#[local] Set Warnings "-register-all".

(* ================================================================== *)
(** ** Python values *)

(** [sub in s] for two strings. *)
Fixpoint contains (sub s : string) : bool :=
  if String.prefix sub s then true
  else match s with
       | EmptyString => false
       | String _ s' => contains sub s'
       end.

(** A value produced by [request.get_json()].  Numbers with a fractional
    part are not represented; no modelled function looks inside a number. *)
Inductive json : Type :=
| JNull : json
| JBool : bool -> json
| JNum : Z -> json
| JStr : string -> json
| JArr : list json -> json
| JObj : list (string * json) -> json.

(** The exceptions the modelled code can raise. *)
Inductive exn : Type :=
| TypeError : exn
| AttributeError : exn
| KeyError : string -> exn
| DatabaseError : exn
| RequestError : string -> exn.

(** [str(e)], the error text of a stored message or of a 500 answer.  Where
    Python builds the text from the operands, the name of the class stands
    for it. *)
Definition exn_text (e : exn) : string :=
  match e with
  | TypeError => "TypeError"
  | AttributeError => "AttributeError"
  | KeyError k => "'" ++ k ++ "'"
  | DatabaseError => "DatabaseError"
  | RequestError m => m
  end.

Inductive result (A : Type) : Type :=
| Ok : A -> result A
| Raise : exn -> result A.
Arguments Ok {A} _.
Arguments Raise {A} _.

(** [bool(v)]. *)
Definition truthy (v : json) : bool :=
  match v with
  | JNull => false
  | JBool b => b
  | JNum n => negb (n =? 0)
  | JStr s => negb (String.eqb s "")
  | JArr l => match l with [] => false | _ => true end
  | JObj kv => match kv with [] => false | _ => true end
  end.

(** Lookup in a dict, by key. *)
Fixpoint assoc {A : Type} (k : string) (kv : list (string * A)) : option A :=
  match kv with
  | [] => None
  | (k', v) :: rest => if String.eqb k k' then Some v else assoc k rest
  end.

Definition is_str (k : string) (v : json) : bool :=
  match v with
  | JStr s => String.eqb k s
  | _ => false
  end.

(** ['k' in v]: key membership for a dict, element membership for a list,
    substring for a string, [TypeError] for the rest. *)
Definition py_in (k : string) (v : json) : result bool :=
  match v with
  | JObj kv => Ok (match assoc k kv with Some _ => true | None => false end)
  | JArr l => Ok (existsb (is_str k) l)
  | JStr s => Ok (contains k s)
  | _ => Raise TypeError
  end.

(** [v.get('k', d)]: only a dict has [get]. *)
Definition py_get (v : json) (k : string) (d : json) : result json :=
  match v with
  | JObj kv => Ok (match assoc k kv with Some x => x | None => d end)
  | _ => Raise AttributeError
  end.

(** [v['k']] with a string key. *)
Definition py_item (v : json) (k : string) : result json :=
  match v with
  | JObj kv => match assoc k kv with
               | Some x => Ok x
               | None => Raise (KeyError k)
               end
  | _ => Raise TypeError
  end.

Fixpoint chars (s : string) : list json :=
  match s with
  | EmptyString => []
  | String c s' => JStr (String c EmptyString) :: chars s'
  end.

(** The items [for x in v] runs over: the elements of a list, the keys of a
    dict, the characters of a string; the rest is not iterable. *)
Definition py_iter (v : json) : result (list json) :=
  match v with
  | JArr l => Ok l
  | JObj kv => Ok (map (fun p => JStr (fst p)) kv)
  | JStr s => Ok (chars s)
  | _ => Raise TypeError
  end.

(** [v.lower()]: only a string has [lower]. *)
Definition py_lower (lower : string -> string) (v : json) : result string :=
  match v with
  | JStr s => Ok (lower s)
  | _ => Raise AttributeError
  end.

(* ================================================================== *)
(** ** models.py

    The audit timestamps [created_at], [updated_at] and [received_at] are
    left out: no modelled function reads them.  Where the code itself reads
    the clock for one of them ([update_client]), the reading is modelled. *)

Module Client.
Record t : Type := mk {
  id : Z;
  name : string;
  email : string;
  access_token : string;
  instagram_account_id : string;
  page_id : string;
  verify_token : string;
  keywords : list string;
  auto_reply_enabled : bool;
  custom_responses : list (string * string);
  active : bool;
  daily_message_limit : Z;
  messages_sent_today : Z;
  last_reset_date : option Z
}.

Definition set_verify_token (v : string) (c : t) : t :=
  mk (id c) (name c) (email c) (access_token c) (instagram_account_id c)
     (page_id c) v (keywords c) (auto_reply_enabled c)
     (custom_responses c) (active c) (daily_message_limit c)
     (messages_sent_today c) (last_reset_date c).

Definition set_keywords (v : list string) (c : t) : t :=
  mk (id c) (name c) (email c) (access_token c) (instagram_account_id c)
     (page_id c) (verify_token c) v (auto_reply_enabled c)
     (custom_responses c) (active c) (daily_message_limit c)
     (messages_sent_today c) (last_reset_date c).

Definition set_auto_reply_enabled (v : bool) (c : t) : t :=
  mk (id c) (name c) (email c) (access_token c) (instagram_account_id c)
     (page_id c) (verify_token c) (keywords c) v
     (custom_responses c) (active c) (daily_message_limit c)
     (messages_sent_today c) (last_reset_date c).

Definition set_custom_responses (v : list (string * string)) (c : t) : t :=
  mk (id c) (name c) (email c) (access_token c) (instagram_account_id c)
     (page_id c) (verify_token c) (keywords c) (auto_reply_enabled c)
     v (active c) (daily_message_limit c)
     (messages_sent_today c) (last_reset_date c).

Definition set_active (v : bool) (c : t) : t :=
  mk (id c) (name c) (email c) (access_token c) (instagram_account_id c)
     (page_id c) (verify_token c) (keywords c) (auto_reply_enabled c)
     (custom_responses c) v (daily_message_limit c)
     (messages_sent_today c) (last_reset_date c).

Definition set_daily_message_limit (v : Z) (c : t) : t :=
  mk (id c) (name c) (email c) (access_token c) (instagram_account_id c)
     (page_id c) (verify_token c) (keywords c) (auto_reply_enabled c)
     (custom_responses c) (active c) v
     (messages_sent_today c) (last_reset_date c).

Definition set_messages_sent_today (v : Z) (c : t) : t :=
  mk (id c) (name c) (email c) (access_token c) (instagram_account_id c)
     (page_id c) (verify_token c) (keywords c) (auto_reply_enabled c)
     (custom_responses c) (active c) (daily_message_limit c)
     v (last_reset_date c).

Definition set_last_reset_date (v : option Z) (c : t) : t :=
  mk (id c) (name c) (email c) (access_token c) (instagram_account_id c)
     (page_id c) (verify_token c) (keywords c) (auto_reply_enabled c)
     (custom_responses c) (active c) (daily_message_limit c)
     (messages_sent_today c) v.

Definition set_id (v : Z) (c : t) : t :=
  mk v (name c) (email c) (access_token c) (instagram_account_id c)
     (page_id c) (verify_token c) (keywords c) (auto_reply_enabled c)
     (custom_responses c) (active c) (daily_message_limit c)
     (messages_sent_today c) (last_reset_date c).

Definition set_name (v : string) (c : t) : t :=
  mk (id c) v (email c) (access_token c) (instagram_account_id c)
     (page_id c) (verify_token c) (keywords c) (auto_reply_enabled c)
     (custom_responses c) (active c) (daily_message_limit c)
     (messages_sent_today c) (last_reset_date c).

Definition set_email (v : string) (c : t) : t :=
  mk (id c) (name c) v (access_token c) (instagram_account_id c)
     (page_id c) (verify_token c) (keywords c) (auto_reply_enabled c)
     (custom_responses c) (active c) (daily_message_limit c)
     (messages_sent_today c) (last_reset_date c).

Definition set_access_token (v : string) (c : t) : t :=
  mk (id c) (name c) (email c) v (instagram_account_id c)
     (page_id c) (verify_token c) (keywords c) (auto_reply_enabled c)
     (custom_responses c) (active c) (daily_message_limit c)
     (messages_sent_today c) (last_reset_date c).

Definition set_instagram_account_id (v : string) (c : t) : t :=
  mk (id c) (name c) (email c) (access_token c) v
     (page_id c) (verify_token c) (keywords c) (auto_reply_enabled c)
     (custom_responses c) (active c) (daily_message_limit c)
     (messages_sent_today c) (last_reset_date c).

Definition set_page_id (v : string) (c : t) : t :=
  mk (id c) (name c) (email c) (access_token c) (instagram_account_id c)
     v (verify_token c) (keywords c) (auto_reply_enabled c)
     (custom_responses c) (active c) (daily_message_limit c)
     (messages_sent_today c) (last_reset_date c).
End Client.

Module Message.
Record t : Type := mk {
  id : Z;
  client_id : Z;
  recipient_id : json;
  message_type : string;
  message_text : json;
  media_url : option string;
  sent : bool;
  error : option string
}.
End Message.

Module Webhook.
Record t : Type := mk {
  id : Z;
  client_id : Z;
  event_type : string;
  payload : json;
  processed : bool;
  error : option string;
  processed_at : option Z
}.
End Webhook.

Module ApiKey.
Record t : Type := mk {
  id : Z;
  client_id : Z;
  key : string;
  name : string;
  active : bool;
  last_used_at : option Z
}.
End ApiKey.

(* ================================================================== *)
(** ** The world: the database, the requests sent to the Graph API and the
       number of readings of the clock *)

(** A request of [InstagramAPI], with the credentials it is made under. *)
Inductive ApiCall : Type :=
| SendMessage (access_token account_id : string) (recipient_id message_text : json)
| ReplyToComment (access_token : string) (comment_id : json) (message_text : string).

Record World : Type := mkWorld {
  clients : list Client.t;
  messages : list Message.t;
  webhooks : list Webhook.t;
  api_keys : list ApiKey.t;
  calls : list ApiCall;
  ticks : nat
}.

(** What the code cannot decide by itself. *)
Record Env : Type := mkEnv {
  (** [str.lower] *)
  str_lower : string -> string;
  (** [str(v)] of a value that is not a string, inside an f-string *)
  py_repr : json -> string;
  (** the n-th reading of [datetime.utcnow()], in seconds *)
  clock : nat -> Z;
  (** [InstagramAPI._make_request]: the parsed response, [JNull] for the
      [None] it returns on a [RequestException], or the exception it lets
      through *)
  graph_api : list ApiCall -> ApiCall -> result json
}.

(** [.date()] of a datetime. *)
Definition date (t : Z) : Z := t / 86400.

(** *** A state and exception monad *)

Definition M (A : Type) : Type := World -> result A * World.

Definition ret {A : Type} (a : A) : M A := fun w => (Ok a, w).

Definition raise {A : Type} (e : exn) : M A := fun w => (Raise e, w).

Definition lift {A : Type} (r : result A) : M A := fun w => (r, w).

Definition bind {A B : Type} (m : M A) (f : A -> M B) : M B :=
  fun w => match m w with
           | (Ok a, w') => f a w'
           | (Raise e, w') => (Raise e, w')
           end.

(** [try: m except Exception as e: h e] *)
Definition try_except {A : Type} (m : M A) (h : exn -> M A) : M A :=
  fun w => match m w with
           | (Ok a, w') => (Ok a, w')
           | (Raise e, w') => h e w'
           end.

Notation "x <- m ;; k" := (bind m (fun x => k))
  (at level 61, m at next level, right associativity).
Notation "m ;; k" := (bind m (fun _ => k))
  (at level 61, right associativity).

(** [for x in l: body x] *)
Fixpoint for_each {A : Type} (l : list A) (body : A -> M unit) : M unit :=
  match l with
  | [] => ret tt
  | x :: l' => body x ;; for_each l' body
  end.

(* ================================================================== *)
(** ** client_manager.py, instagram_api.py, handlers.py, app.py *)

(** The object [query(...).first()] gives is the row itself: assigning to
    its attributes and committing rewrites the row with its primary key. *)
Fixpoint store_client (c : Client.t) (l : list Client.t) : list Client.t :=
  match l with
  | [] => []
  | x :: l' => if Client.id x =? Client.id c then c :: l'
               else x :: store_client c l'
  end.

Fixpoint store_webhook (h : Webhook.t) (l : list Webhook.t) : list Webhook.t :=
  match l with
  | [] => []
  | x :: l' => if Webhook.id x =? Webhook.id h then h :: l'
               else x :: store_webhook h l'
  end.

Fixpoint store_api_key (a : ApiKey.t) (l : list ApiKey.t) : list ApiKey.t :=
  match l with
  | [] => []
  | x :: l' => if ApiKey.id x =? ApiKey.id a then a :: l'
               else x :: store_api_key a l'
  end.

Definition option_Z_eqb (a b : option Z) : bool :=
  match a, b with
  | Some x, Some y => x =? y
  | None, None => true
  | _, _ => false
  end.

(** The columns of a tenant that are [nullable=False]. *)
Inductive NotNull : Type :=
| NN_id
| NN_name
| NN_email
| NN_access_token
| NN_instagram_account_id
| NN_page_id
| NN_verify_token.

(** A keyword argument of [update_client] that names a column: with a value
    of the column's type, or with [None] for a column that is
    [nullable=False] ([A_none]).  [kwargs] is a dict: a column is named at
    most once.  Keys that name no modelled column leave the modelled row as
    it is, and are not represented; neither is a value of another type than
    the column's, nor [None] for a nullable column other than
    [last_reset_date]. *)
Inductive Attr : Type :=
| A_id (v : Z)
| A_name (v : string)
| A_email (v : string)
| A_access_token (v : string)
| A_instagram_account_id (v : string)
| A_page_id (v : string)
| A_none (column : NotNull)
| A_verify_token (v : string)
| A_keywords (v : list string)
| A_auto_reply_enabled (v : bool)
| A_custom_responses (v : list (string * string))
| A_active (v : bool)
| A_daily_message_limit (v : Z)
| A_messages_sent_today (v : Z)
| A_last_reset_date (v : option Z).

(** [setattr(client, key, value)].  A [None] put into a column that does
    not take it never reaches the table (the commit fails, see
    [commit_update]): the row is carried on as it is. *)
Definition setattr (c : Client.t) (a : Attr) : Client.t :=
  match a with
  | A_id v => Client.set_id v c
  | A_name v => Client.set_name v c
  | A_email v => Client.set_email v c
  | A_access_token v => Client.set_access_token v c
  | A_instagram_account_id v => Client.set_instagram_account_id v c
  | A_page_id v => Client.set_page_id v c
  | A_none _ => c
  | A_verify_token v => Client.set_verify_token v c
  | A_keywords v => Client.set_keywords v c
  | A_auto_reply_enabled v => Client.set_auto_reply_enabled v c
  | A_custom_responses v => Client.set_custom_responses v c
  | A_active v => Client.set_active v c
  | A_daily_message_limit v => Client.set_daily_message_limit v c
  | A_messages_sent_today v => Client.set_messages_sent_today v c
  | A_last_reset_date v => Client.set_last_reset_date v c
  end.

(** A recipient the [recipient_id] column ([String], [nullable=False])
    takes, on SQLite, the default backend: a scalar that is not [None]. *)
Definition storable (v : json) : bool :=
  match v with
  | JStr _ | JNum _ | JBool _ => true
  | JNull | JArr _ | JObj _ => false
  end.

(** A text the [message_text] column ([Text], nullable) takes: [None] or a
    scalar; the driver refuses to bind a list or a dict. *)
Definition storable_text (v : json) : bool :=
  match v with
  | JArr _ | JObj _ => false
  | JNull | JStr _ | JNum _ | JBool _ => true
  end.

(** The primary key an insert is given on SQLite, the default backend: one
    more than the largest key of the table, 1 in an empty table. *)
Definition next_id (ids : list Z) : Z := 1 + fold_right Z.max 0 ids.

(** The row whose primary key is [old_id] rewritten as [c]. *)
Fixpoint replace_client (old_id : Z) (c : Client.t) (l : list Client.t)
  : list Client.t :=
  match l with
  | [] => []
  | x :: l' => if Client.id x =? old_id then c :: l'
               else x :: replace_client old_id c l'
  end.

Definition is_none (a : Attr) : bool :=
  match a with
  | A_none _ => true
  | _ => false
  end.

(** The commit of [update_client] fails: a [None] was put into a column
    that does not take it, or the row was given a primary key or an email
    (a unique column) that is in the table. *)
Definition commit_fails (client updated : Client.t) (kwargs : list Attr)
    (l : list Client.t) : bool :=
  existsb is_none kwargs
  || (negb (Client.id updated =? Client.id client)
      && existsb (fun x => Client.id x =? Client.id updated) l)
  || (negb (String.eqb (Client.email updated) (Client.email client))
      && existsb (fun x => String.eqb (Client.email x) (Client.email updated))
                 l).

Record Response : Type := mkResponse {
  body : json;
  status : Z
}.

Section ClientManager.

Variable E : Env.

(** [datetime.utcnow()] *)
Definition utcnow : M Z :=
  fun w => (Ok (clock E (ticks w)),
            mkWorld (clients w) (messages w) (webhooks w) (api_keys w)
                    (calls w) (S (ticks w))).

(** *** ClientManager

    [.first()] gives the first row that passes the filter, in the order the
    database yields the rows: the order of the list. *)

Definition get_client (client_id : Z) : M (option Client.t) :=
  fun w => (Ok (find (fun c => Client.id c =? client_id) (clients w)), w).

Definition get_client_by_verify_token (verify_token : string)
  : M (option Client.t) :=
  fun w => (Ok (find (fun c => String.eqb (Client.verify_token c) verify_token)
                     (clients w)), w).

Definition list_clients (active_only : bool) : M (list Client.t) :=
  fun w => (Ok (if active_only then filter Client.active (clients w)
                else clients w), w).

(** The [commit] after the attributes of [c] were assigned. *)
Definition commit_client (c : Client.t) : M unit :=
  fun w => (Ok tt,
            mkWorld (store_client c (clients w)) (messages w) (webhooks w)
                    (api_keys w) (calls w) (ticks w)).

(** The [commit] of [update_client]: the row found is rewritten with the
    attributes assigned, or the commit is refused and the table left as it
    was. *)
Definition commit_update (client updated : Client.t) (kwargs : list Attr)
  : M unit :=
  fun w =>
    if commit_fails client updated kwargs (clients w) then
      (Raise DatabaseError, w)
    else
      (Ok tt,
       mkWorld (replace_client (Client.id client) updated (clients w))
               (messages w) (webhooks w) (api_keys w) (calls w) (ticks w)).

Definition update_client (client_id : Z) (kwargs : list Attr)
  : M (option Client.t) :=
  try_except
    (oc <- get_client client_id ;;
     match oc with
     | None => ret None
     | Some client =>
         let updated := fold_left setattr kwargs client in
         (* client.updated_at = datetime.utcnow() *)
         utcnow ;;
         commit_update client updated kwargs ;;
         ret (Some updated)
     end)
    (fun e => (* rollback *) raise e).

Definition deactivate_client (client_id : Z) : M bool :=
  oc <- update_client client_id [A_active false] ;;
  ret (match oc with Some _ => true | None => false end).

Definition activate_client (client_id : Z) : M bool :=
  oc <- update_client client_id [A_active true] ;;
  ret (match oc with Some _ => true | None => false end).

Definition check_rate_limit (client_id : Z) : M bool :=
  oc <- get_client client_id ;;
  match oc with
  | None => ret false
  | Some client =>
      now <- utcnow ;;
      let today := date now in
      let last_reset := option_map date (Client.last_reset_date client) in
      client <-
        (if negb (option_Z_eqb last_reset (Some today)) then
           now <- utcnow ;;
           let client :=
             Client.set_last_reset_date (Some now)
               (Client.set_messages_sent_today 0 client) in
           commit_client client ;;
           ret client
         else ret client) ;;
      ret (Client.messages_sent_today client
             <? Client.daily_message_limit client)
  end.

Definition increment_message_count (client_id : Z) : M unit :=
  oc <- get_client client_id ;;
  match oc with
  | Some client =>
      commit_client
        (Client.set_messages_sent_today
           (Client.messages_sent_today client + 1) client)
  | None => ret tt
  end.

(** [db.add(message); db.commit()]: the insert fails on a recipient or a
    text its column does not take, and then leaves no row. *)
Definition add_message (m : Message.t) : M unit :=
  fun w =>
    if storable (Message.recipient_id m)
       && storable_text (Message.message_text m) then
      (Ok tt, mkWorld (clients w) (messages w ++ [m]) (webhooks w)
                      (api_keys w) (calls w) (ticks w))
    else (Raise DatabaseError, w).

Definition log_message (client_id : Z) (recipient_id : json)
    (message_type : string) (message_text : json)
    (media_url : option string) (sent : bool) (error : option string)
  : M Message.t :=
  try_except
    (fun w =>
       let message :=
         Message.mk (next_id (map Message.id (messages w))) client_id
                    recipient_id message_type message_text media_url
                    sent error in
       (add_message message ;;
        (if sent then increment_message_count client_id else ret tt) ;;
        ret message) w)
    (fun e => (* rollback *) raise e).

Definition log_webhook (event_type : string) (payload : json)
    (client_id : Z) : M Webhook.t :=
  fun w =>
    let webhook :=
      Webhook.mk (next_id (map Webhook.id (webhooks w))) client_id event_type
                 payload false None None in
    (Ok webhook,
     mkWorld (clients w) (messages w) (webhooks w ++ [webhook])
             (api_keys w) (calls w) (ticks w)).

Definition commit_webhook (h : Webhook.t) : M unit :=
  fun w => (Ok tt,
            mkWorld (clients w) (messages w) (store_webhook h (webhooks w))
                    (api_keys w) (calls w) (ticks w)).

Definition mark_webhook_processed (webhook_id : Z) (error : option string)
  : M unit :=
  fun w =>
    match find (fun h => Webhook.id h =? webhook_id) (webhooks w) with
    | Some webhook =>
        (now <- utcnow ;;
         commit_webhook
           (Webhook.mk (Webhook.id webhook) (Webhook.client_id webhook)
              (Webhook.event_type webhook) (Webhook.payload webhook)
              true
              (match error with
               | Some e => if String.eqb e "" then Webhook.error webhook
                           else Some e
               | None => Webhook.error webhook
               end)
              (Some now))) w
    | None => (Ok tt, w)
    end.

Definition commit_api_key (a : ApiKey.t) : M unit :=
  fun w => (Ok tt,
            mkWorld (clients w) (messages w) (webhooks w)
                    (store_api_key a (api_keys w)) (calls w) (ticks w)).

Definition validate_api_key (key : string) : M (option Client.t) :=
  fun w =>
    match find (fun a => String.eqb (ApiKey.key a) key && ApiKey.active a)
               (api_keys w) with
    | None => (Ok None, w)
    | Some api_key =>
        (now <- utcnow ;;
         commit_api_key
           (ApiKey.mk (ApiKey.id api_key) (ApiKey.client_id api_key)
              (ApiKey.key api_key) (ApiKey.name api_key)
              (ApiKey.active api_key) (Some now)) ;;
         get_client (ApiKey.client_id api_key)) w
    end.

End ClientManager.

(** *** InstagramAPI: the request is recorded, the environment answers *)

Definition record_call (call : ApiCall) (w : World) : World :=
  mkWorld (clients w) (messages w) (webhooks w) (api_keys w)
          (calls w ++ [call]) (ticks w).

Module InstagramAPI.
Section Api.

Variable E : Env.

Definition _make_request (call : ApiCall) : M json :=
  fun w => (graph_api E (calls w) call, record_call call w).

Definition send_message (client : Client.t) (recipient_id message_text : json)
  : M json :=
  _make_request
    (SendMessage (Client.access_token client)
                 (Client.instagram_account_id client)
                 recipient_id message_text).

Definition reply_to_comment (client : Client.t) (comment_id : json)
    (message_text : string) : M json :=
  _make_request
    (ReplyToComment (Client.access_token client) comment_id message_text).

End Api.
End InstagramAPI.

(** A handler is built around the [client] the route resolved.  The
    attributes it reads from it ([id], [auto_reply_enabled],
    [custom_responses], [keywords] and the credentials) are written by no
    modelled function but [update_client], which no route calls while a
    handler runs: the value resolved stands for the object. *)

Section Handlers.

Variable E : Env.

(** *** MessageHandler *)

(** [any(word in text_lower for word in words)] *)
Definition any_in (words : list string) (text_lower : string) : bool :=
  existsb (fun word => contains word text_lower) words.

Definition _get_default_response (text_lower : string) : string :=
  if any_in ["oi"; "olá"; "ola"; "hey"; "boa"] text_lower then
    "Olá! 👋 Como posso ajudar você hoje?"
  else if any_in ["preço"; "preco"; "valor"; "quanto custa"] text_lower then
    "📋 Para informações sobre preços, nossa equipe te enviará todos os detalhes em breve!"
  else if any_in ["horário"; "horario"; "atendimento"] text_lower then
    "🕐 Nosso horário de atendimento:
Seg-Sex: 9h às 18h
Sáb: 9h às 13h"
  else if any_in ["catálogo"; "catalogo"; "produtos"] text_lower then
    "📸 Vou te enviar nosso catálogo completo!"
  else if any_in ["contato"; "telefone"; "whatsapp"] text_lower then
    "📞 Entre em contato conosco pelos nossos canais oficiais!"
  else
    "Obrigado pela sua mensagem! 🙂 Em breve retornaremos.".

(** The loop over [custom_responses.items()], with its [break]: the value
    of [response] after it, [None] when no keyword matched. *)
Fixpoint custom_loop (text_lower : string) (items : list (string * string))
  : option string :=
  match items with
  | [] => None
  | (keyword, custom_response) :: rest =>
      if contains (str_lower E keyword) text_lower then Some custom_response
      else custom_loop text_lower rest
  end.

(** [not response] *)
Definition not_response (response : option string) : bool :=
  match response with
  | None => true
  | Some s => String.eqb s ""
  end.

(** The response [process_message] sends for a text already lowered. *)
Definition select_response (client : Client.t) (text_lower : string)
  : string :=
  let custom_responses := Client.custom_responses client in
  let response := custom_loop text_lower custom_responses in
  if not_response response then _get_default_response text_lower
  else match response with Some r => r | None => "" end.

Definition process_message (client : Client.t) (sender_id message_text : json)
  : M unit :=
  allowed <- check_rate_limit E (Client.id client) ;;
  if negb allowed then ret tt
  else if negb (Client.auto_reply_enabled client) then ret tt
  else
    text_lower <- lift (py_lower (str_lower E) message_text) ;;
    let response := select_response client text_lower in
    try_except
      (result <- InstagramAPI.send_message E client sender_id (JStr response) ;;
       log_message (Client.id client) sender_id "dm" (JStr response) None
                   (truthy result) None ;;
       ret tt)
      (fun e =>
         log_message (Client.id client) sender_id "dm" (JStr response) None
                     false (Some (exn_text e)) ;;
         ret tt).

(** *** CommentHandler *)

(** [f"@{username} ..."] *)
Definition format_value (v : json) : string :=
  match v with
  | JStr s => s
  | _ => py_repr E v
  end.

Definition _generate_comment_response (text_lower : string) (username : json)
  : string :=
  if any_in ["preço"; "preco"; "valor"] text_lower then
    "@" ++ format_value username ++ " Oi! Enviamos os preços por DM! 📩"
  else if any_in ["orçamento"; "orcamento"] text_lower then
    "@" ++ format_value username
        ++ " Olá! Vamos te enviar um orçamento personalizado por DM! 💼"
  else if any_in ["informação"; "informacao"; "info"] text_lower then
    "@" ++ format_value username
        ++ " Oi! Te enviamos todas as informações por DM! ✉️"
  else if any_in ["contato"; "whatsapp"] text_lower then
    "@" ++ format_value username ++ " Te respondemos por DM! 📱"
  else
    "@" ++ format_value username ++ " Olá! Vamos te responder por DM! 😊".

Definition process_comment (client : Client.t)
    (comment_id comment_text username : json) : M unit :=
  allowed <- check_rate_limit E (Client.id client) ;;
  if negb allowed then ret tt
  else if negb (Client.auto_reply_enabled client) then ret tt
  else
    text_lower <- lift (py_lower (str_lower E) comment_text) ;;
    let client_keywords := Client.keywords client in
    let should_reply :=
      existsb (fun keyword => contains (str_lower E keyword) text_lower)
              client_keywords in
    if should_reply then
      let response := _generate_comment_response text_lower username in
      try_except
        (result <- InstagramAPI.reply_to_comment E client comment_id response ;;
         log_message (Client.id client) username "comment" (JStr response)
                     None (truthy result) None ;;
         ret tt)
        (fun e => (* logger.error *) ret tt)
    else ret tt.

(** *** StoryMentionHandler *)

Definition process_mention (client : Client.t) (sender_id media_id : json)
  : M unit :=
  if negb (Client.auto_reply_enabled client) then ret tt
  else
    let response := "Obrigado por compartilhar! 🙏✨" in
    try_except
      (result <- InstagramAPI.send_message E client sender_id (JStr response) ;;
       log_message (Client.id client) sender_id "story_mention"
                   (JStr response) None (truthy result) None ;;
       ret tt)
      (fun e => (* logger.error *) ret tt).

End Handlers.

(** *** app.py *)

Section App.

Variable E : Env.

Definition process_messaging_event (event : json) (client : Client.t)
  : M unit :=
  sender <- lift (py_get event "sender" (JObj [])) ;;
  sender_id <- lift (py_get sender "id" JNull) ;;
  has_message <- lift (py_in "message" event) ;;
  if has_message then
    message <- lift (py_item event "message") ;;
    is_echo <- lift (py_in "is_echo" message) ;;
    if is_echo then ret tt
    else
      message_text <- lift (py_get message "text" (JStr "")) ;;
      if truthy message_text then
        process_message E client sender_id message_text
      else ret tt
  else
    has_story_mention <- lift (py_in "story_mention" event) ;;
    if has_story_mention then
      story_mention <- lift (py_item event "story_mention") ;;
      media_id <- lift (py_get story_mention "id" JNull) ;;
      process_mention E client sender_id media_id
    else ret tt.

Definition process_change_event (change : json) (client : Client.t)
  : M unit :=
  field <- lift (py_get change "field" JNull) ;;
  value <- lift (py_get change "value" JNull) ;;
  if is_str "comments" field then
    comment_id <- lift (py_get value "id" JNull) ;;
    comment_text <- lift (py_get value "text" (JStr "")) ;;
    from <- lift (py_get value "from" (JObj [])) ;;
    username <- lift (py_get from "username" (JStr "unknown")) ;;
    process_comment E client comment_id comment_text username
  else if is_str "mentions" field then (* logger.info *) ret tt
  else ret tt.

Definition process_entry (entry : json) (client : Client.t) : M unit :=
  has_messaging <- lift (py_in "messaging" entry) ;;
  (if has_messaging then
     messaging <- lift (py_item entry "messaging") ;;
     events <- lift (py_iter messaging) ;;
     for_each events (fun messaging_event =>
                        process_messaging_event messaging_event client)
   else ret tt) ;;
  has_changes <- lift (py_in "changes" entry) ;;
  if has_changes then
    changes <- lift (py_item entry "changes") ;;
    items <- lift (py_iter changes) ;;
    for_each items (fun change => process_change_event change client)
  else ret tt.

(** The body of the [try] of [webhook_receive] from the point where
    [request.get_json()] has given [data]. *)
Definition webhook_receive_try (verify_token : string) (data : json)
  : M Response :=
  oc <- get_client_by_verify_token verify_token ;;
  match oc with
  | None => ret (mkResponse (JStr "Forbidden") 403)
  | Some client =>
      if negb (Client.active client) then
        ret (mkResponse (JStr "CLIENT_INACTIVE") 200)
      else
        webhook <- log_webhook "instagram_event" data (Client.id client) ;;
        has_entry <- lift (py_in "entry" data) ;;
        (if has_entry then
           entries <- lift (py_item data "entry") ;;
           items <- lift (py_iter entries) ;;
           for_each items (fun entry => process_entry entry client)
         else ret tt) ;;
        mark_webhook_processed E (Webhook.id webhook) None ;;
        ret (mkResponse (JStr "EVENT_RECEIVED") 200)
  end.

(** [POST /webhook/<verify_token>] *)
Definition webhook_receive (verify_token : string) (data : json)
    (w : World) : Response * World :=
  match webhook_receive_try verify_token data w with
  | (Ok r, w') => (r, w')
  | (Raise e, w') => (mkResponse (JStr "ERROR") 500, w')
  end.

Definition error_body (msg : string) : json := JObj [("error", JStr msg)].

(** The decorator [require_api_key] applied to a route [f]; [api_key] is
    the [X-API-Key] header. *)
Definition require_api_key (f : Client.t -> World -> Response * World)
    (api_key : option string) (w : World) : Response * World :=
  match api_key with
  | None => (mkResponse (error_body "API Key required") 401, w)
  | Some key =>
      if String.eqb key "" then
        (mkResponse (error_body "API Key required") 401, w)
      else
        match validate_api_key E key w with
        | (Ok (Some client), w') => f client w'
        | (_, w') => (mkResponse (error_body "Invalid API Key") 401, w')
        end
  end.

Definition send_message_try (client : Client.t) (data : json) : M Response :=
  recipient_id <- lift (py_item data "recipient_id") ;;
  message_text <- lift (py_item data "message") ;;
  result <- InstagramAPI.send_message E client recipient_id message_text ;;
  log_message (Client.id client) recipient_id "dm" message_text None
              (truthy result) None ;;
  ret (mkResponse (JObj [("success", JBool true); ("result", result)]) 200).

(** [POST /api/send-message] *)
Definition send_message (data : json) (api_key : option string)
  : World -> Response * World :=
  require_api_key
    (fun client w =>
       match send_message_try client data w with
       | (Ok r, w') => (r, w')
       | (Raise e, w') => (mkResponse (error_body (exn_text e)) 500, w')
       end)
    api_key.

End App.

(* ================================================================== *)
(** ** Sample data *)

(** [str.lower] on ASCII text. *)
Definition lower_char (c : ascii) : ascii :=
  let n := nat_of_ascii c in
  if (65 <=? n)%nat && (n <=? 90)%nat then ascii_of_nat (n + 32) else c.

Fixpoint ascii_lower (s : string) : string :=
  match s with
  | EmptyString => EmptyString
  | String c s' => String (lower_char c) (ascii_lower s')
  end.

(** An environment whose clock stands at [t] and whose Graph API answers
    by [api]. *)
Definition sample_env (api : list ApiCall -> ApiCall -> result json) (t : Z)
  : Env :=
  mkEnv ascii_lower (fun _ => "None") (fun _ => t) api.

Definition api_ok : list ApiCall -> ApiCall -> result json :=
  fun _ _ => Ok (JObj [("message_id", JStr "mid.1")]).


Definition api_raises : list ApiCall -> ApiCall -> result json :=
  fun _ _ => Raise (RequestError "Expecting value").

(** Noon of day 20000 and noon of the day before. *)
Definition today_noon : Z := 20000 * 86400 + 43200.
Definition yesterday_noon : Z := 19999 * 86400 + 43200.

Definition acme (sent : Z) (last_reset : option Z) : Client.t :=
  Client.mk 1 "Acme" "ops@acme.example" "token-acme" "17840000000000001"
            "1001" "vt-acme" ["preço"] true [("promo", "X")] true
            3 sent last_reset.

Definition bistro (sent : Z) (last_reset : option Z) : Client.t :=
  Client.mk 2 "Bistro" "hi@bistro.example" "token-bistro" "17840000000000002"
            "1002" "vt-bistro" ["contato"] true [] true
            3 sent last_reset.

Definition world_of (cs : list Client.t) (ks : list ApiKey.t) : World :=
  mkWorld cs [] [] ks [] 0.

(** Webhook payloads in the shape the platform sends them. *)
Definition delivery (entries : list json) : json :=
  JObj [("object", JStr "instagram"); ("entry", JArr entries)].

Definition messaging_entry (events : list json) : json :=
  JObj [("id", JStr "17840000000000001"); ("time", JNum 1728043200);
        ("messaging", JArr events)].

Definition changes_entry (changes : list json) : json :=
  JObj [("id", JStr "17840000000000001"); ("time", JNum 1728043200);
        ("changes", JArr changes)].

Definition dm_event (sender text : string) : json :=
  JObj [("sender", JObj [("id", JStr sender)]);
        ("recipient", JObj [("id", JStr "17840000000000001")]);
        ("message", JObj [("mid", JStr "mid.1"); ("text", JStr text)])].

Definition story_event (sender media : string) : json :=
  JObj [("sender", JObj [("id", JStr sender)]);
        ("story_mention", JObj [("id", JStr media)])].

Definition comment_change (comment_id text username : string) : json :=
  JObj [("field", JStr "comments");
        ("value", JObj [("id", JStr comment_id); ("text", JStr text);
                        ("from", JObj [("username", JStr username)])])].

(** A [comments] change that lacks its [value]. *)
Definition broken_change : json := JObj [("field", JStr "comments")].

Definition acme_key (active : bool) : ApiKey.t :=
  ApiKey.mk 1 1 "sk_acme" "Initial Key" active None.

(** The row of a tenant in the directory. *)
Definition client_row (client_id : Z) (w : World) : option Client.t :=
  find (fun c => Client.id c =? client_id) (clients w).

(** The day the clock shows at its next reading. *)
Definition today (E : Env) (w : World) : Z := date (clock E (ticks w)).

(** The tenant's counter was last reset on the day the clock shows. *)
Definition same_day (E : Env) (w : World) (c : Client.t) : Prop :=
  option_map date (Client.last_reset_date c) = Some (today E w).

(** What the rollover of [check_rate_limit] writes: the counter at 0 and the
    reset time at the second reading of the clock. *)
Definition rolled_over (E : Env) (w : World) (c : Client.t) : Client.t :=
  Client.set_last_reset_date (Some (clock E (S (ticks w))))
    (Client.set_messages_sent_today 0 c).

(* ================================================================== *)
(** ** The rest of the tenant directory and of the routes *)

Definition get_client_by_email (email : string) : M (option Client.t) :=
  fun w => (Ok (find (fun c => String.eqb (Client.email c) email)
                     (clients w)), w).

(** What [create_client] comes to: the client created, or the [ValueError]
    it raises, after the rollback, when the email is taken. *)
Inductive created : Type :=
| Created (client : Client.t)
| ValueError (message : string).

Section Directory.

Variable E : Env.

(** [create_client]; [verify_token] is what [secrets.token_urlsafe(32)]
    gave.  The counter, the switches and the reset date are filled by the
    defaults of their columns, the reset date by a reading of the clock. *)
Definition create_client (verify_token : string)
    (name email access_token instagram_account_id page_id : string)
    (keywords : list string) (custom_responses : list (string * string))
    (daily_limit : Z) (w : World) : created * World :=
  match find (fun c => String.eqb (Client.email c) email) (clients w) with
  | Some existing =>
      (ValueError ("Cliente com email " ++ email ++ " já existe!"), w)
  | None =>
      let client :=
        Client.mk (next_id (map Client.id (clients w))) name email
                  access_token instagram_account_id page_id verify_token
                  keywords true custom_responses true daily_limit 0
                  (Some (clock E (ticks w))) in
      (Created client,
       mkWorld (clients w ++ [client]) (messages w) (webhooks w) (api_keys w)
               (calls w) (S (ticks w)))
  end.

End Directory.

(** [generate_api_key]; [token] is what [secrets.token_urlsafe(48)] gave.
    The [key] column is unique: the insert of a key that is in the table
    fails, and the exception is raised again after the rollback. *)
Definition generate_api_key (token : string) (client_id : Z) (name : string)
  : M ApiKey.t :=
  try_except
    (fun w =>
       let key := "sk_" ++ token in
       let api_key :=
         ApiKey.mk (next_id (map ApiKey.id (api_keys w))) client_id key name
                   true None in
       if existsb (fun a => String.eqb (ApiKey.key a) key) (api_keys w) then
         (Raise DatabaseError, w)
       else
         (Ok api_key,
          mkWorld (clients w) (messages w) (webhooks w)
                  (api_keys w ++ [api_key]) (calls w) (ticks w)))
    (fun e => (* rollback *) raise e).

(** [delete_client], the hard delete: the keys, the messages and the
    webhooks of the tenant, then its row, in one commit. *)
Definition delete_client (client_id : Z) : M bool :=
  oc <- get_client client_id ;;
  match oc with
  | None => ret false
  | Some client =>
      fun w =>
        (Ok true,
         mkWorld
           (filter (fun c => negb (Client.id c =? Client.id client))
                   (clients w))
           (filter (fun m => negb (Message.client_id m =? client_id))
                   (messages w))
           (filter (fun h => negb (Webhook.client_id h =? client_id))
                   (webhooks w))
           (filter (fun a => negb (ApiKey.client_id a =? client_id))
                   (api_keys w))
           (calls w) (ticks w))
  end.

Module Routes.

(** [GET /webhook/<verify_token>].  When [hub.challenge] is absent the view
    returns [(None, 200)], which Flask refuses: the route answers with
    status 500 (the body of Flask's error page is not modelled, the name of
    the status stands for it). *)
Definition webhook_verify (verify_token : string)
    (mode token challenge : option string) (w : World) : Response * World :=
  match get_client_by_verify_token verify_token w with
  | (Ok (Some client), w') =>
      if match mode with Some m => String.eqb m "subscribe" | None => false end
         && match token with
            | Some t => String.eqb t verify_token
            | None => false
            end
      then match challenge with
           | Some c => (mkResponse (JStr c) 200, w')
           | None => (mkResponse (JStr "Internal Server Error") 500, w')
           end
      else (mkResponse (JStr "Forbidden") 403, w')
  | (_, w') => (mkResponse (JStr "Forbidden") 403, w')
  end.

(** [DELETE /api/clients/<client_id>], the soft delete. *)
Definition delete_client (E : Env) (client_id : Z) (w : World)
  : Response * World :=
  match deactivate_client E client_id w with
  | (Ok true, w') =>
      (mkResponse (JObj [("success", JBool true);
                         ("message", JStr "Client deactivated")]) 200, w')
  | (Ok false, w') => (mkResponse (error_body "Client not found") 404, w')
  | (Raise e, w') => (mkResponse (JStr "Internal Server Error") 500, w')
  end.

End Routes.

(** The directory after one more message was counted for a tenant: what
    the commit of [increment_message_count] leaves. *)
Definition counted (client_id : Z) (l : list Client.t) : list Client.t :=
  match find (fun c => Client.id c =? client_id) l with
  | Some client =>
      store_client
        (Client.set_messages_sent_today
           (Client.messages_sent_today client + 1) client) l
  | None => l
  end.

(** What [webhook_receive] runs between the logging of the webhook and its
    marking: the loop over the entries of the body. *)
Definition process_entries (E : Env) (client : Client.t) (data : json)
  : M unit :=
  has_entry <- lift (py_in "entry" data) ;;
  if has_entry then
    entries <- lift (py_item data "entry") ;;
    items <- lift (py_iter entries) ;;
    for_each items (fun entry => process_entry E entry client)
  else ret tt.

(** The row a delivery is logged as, and that row once marked. *)
Definition logged_webhook (client : Client.t) (data : json) (w : World)
  : Webhook.t :=
  Webhook.mk (next_id (map Webhook.id (webhooks w))) (Client.id client)
             "instagram_event" data false None None.

Definition marked_at (t : Z) (h : Webhook.t) : Webhook.t :=
  Webhook.mk (Webhook.id h) (Webhook.client_id h) (Webhook.event_type h)
             (Webhook.payload h) true (Webhook.error h) (Some t).

(* ================================================================== *)
(** ** On whose behalf a run acts *)

(** The request is made under the credentials of [client]. *)
Definition issued_by (client : Client.t) (call : ApiCall) : Prop :=
  match call with
  | SendMessage access_token account_id _ _ =>
      access_token = Client.access_token client
      /\ account_id = Client.instagram_account_id client
  | ReplyToComment access_token _ _ =>
      access_token = Client.access_token client
  end.

(** From [w] to [w'] messages were only added, all of them of [client];
    requests were only added, all of them under its credentials; the keys
    and the rows of the other tenants are as they were. *)
Definition acts_for (client : Client.t) (w w' : World) : Prop :=
  (exists ms,
      messages w' = (messages w ++ ms)%list
      /\ Forall (fun m => Message.client_id m = Client.id client) ms)
  /\ (exists cs,
        calls w' = (calls w ++ cs)%list /\ Forall (issued_by client) cs)
  /\ api_keys w' = api_keys w
  /\ (forall other, other <> Client.id client ->
                    client_row other w' = client_row other w).

Definition same_webhooks (w w' : World) : Prop := webhooks w' = webhooks w.

(** Every run of [m] is related by [R] to the world it starts from. *)
Definition keeps (R : World -> World -> Prop) {A : Type} (m : M A) : Prop :=
  forall w, R w (snd (m w)).

(* ================================================================== *)
(** ** Properties *)

Ltac run :=
  unfold bind, ret, raise, lift, try_except; simpl.

Lemma option_Z_eqb_eq (a b : option Z) : option_Z_eqb a b = true <-> a = b.
Proof.
  destruct a as [x|], b as [y|]; simpl; split; intro H;
    try discriminate; try reflexivity.
  - apply Z.eqb_eq in H. now subst.
  - inversion H. apply Z.eqb_refl.
Qed.

Lemma find_client_id (l : list Client.t) (cid : Z) (c : Client.t) :
  find (fun x => Client.id x =? cid) l = Some c -> Client.id c = cid.
Proof.
  intro H. apply find_some in H. destruct H as [_ H]. now apply Z.eqb_eq.
Qed.

Lemma find_store_client (l : list Client.t) (cid : Z) (c c' : Client.t) :
  find (fun x => Client.id x =? cid) l = Some c ->
  Client.id c' = cid ->
  find (fun x => Client.id x =? cid) (store_client c' l) = Some c'.
Proof.
  intros Hf Hid. induction l as [|a l IH]; simpl in *; [discriminate|].
  rewrite Hid. destruct (Client.id a =? cid) eqn:Ha.
  - simpl. rewrite Hid, Z.eqb_refl. reflexivity.
  - simpl. rewrite Ha. auto.
Qed.

Section Quota.

Variable E : Env.

(** [check_rate_limit] on a tenant whose counter was reset today: the
    store is left as it is and the answer compares counter and limit. *)
Lemma check_rate_limit_same_day (w : World) (cid : Z) (c : Client.t) :
  client_row cid w = Some c ->
  same_day E w c ->
  check_rate_limit E cid w =
    (Ok (Client.messages_sent_today c <? Client.daily_message_limit c),
     mkWorld (clients w) (messages w) (webhooks w) (api_keys w) (calls w)
             (S (ticks w))).
Proof.
  unfold client_row, same_day, today. intros Hrow Hday.
  unfold check_rate_limit, get_client, utcnow. run.
  rewrite Hrow. simpl.
  apply option_Z_eqb_eq in Hday. rewrite Hday. reflexivity.
Qed.

(** [check_rate_limit] on a tenant whose counter was last reset on another
    day, or never: the row is rewritten with the counter at 0. *)
Lemma check_rate_limit_new_day (w : World) (cid : Z) (c : Client.t) :
  client_row cid w = Some c ->
  ~ same_day E w c ->
  check_rate_limit E cid w =
    (Ok (0 <? Client.daily_message_limit c),
     mkWorld (store_client (rolled_over E w c) (clients w)) (messages w)
             (webhooks w) (api_keys w) (calls w) (S (S (ticks w)))).
Proof.
  unfold client_row, same_day, today. intros Hrow Hday.
  unfold check_rate_limit, get_client, utcnow, commit_client. run.
  rewrite Hrow. simpl.
  destruct (option_Z_eqb _ _) eqn:Heq.
  - apply option_Z_eqb_eq in Heq. contradiction.
  - reflexivity.
Qed.

Lemma check_rate_limit_unknown (w : World) (cid : Z) :
  client_row cid w = None ->
  check_rate_limit E cid w = (Ok false, w).
Proof.
  unfold client_row. intro Hrow.
  unfold check_rate_limit, get_client. run. now rewrite Hrow.
Qed.

Lemma same_day_dec (w : World) (c : Client.t) :
  same_day E w c \/ ~ same_day E w c.
Proof.
  unfold same_day.
  destruct (option_Z_eqb (option_map date (Client.last_reset_date c))
                         (Some (today E w))) eqn:H.
  - left. now apply option_Z_eqb_eq.
  - right. intro H'. apply option_Z_eqb_eq in H'. congruence.
Qed.

Lemma increment_message_count_row (w : World) (cid : Z) (c : Client.t) :
  client_row cid w = Some c ->
  increment_message_count cid w =
    (Ok tt,
     mkWorld (store_client
                (Client.set_messages_sent_today
                   (Client.messages_sent_today c + 1) c) (clients w))
             (messages w) (webhooks w) (api_keys w) (calls w) (ticks w)).
Proof.
  unfold client_row. intro Hrow.
  unfold increment_message_count, get_client, commit_client. run.
  now rewrite Hrow.
Qed.

End Quota.

(** *** Quota tracker *)

(** C5.  For an existing tenant, after [increment_message_count] the
    tenant's [messages_sent_today] is its previous value plus 1; a
    [check_rate_limit] on the day of the last reset answers [False] exactly
    when [messages_sent_today >= daily_message_limit] and leaves the
    directory as it was; and whatever the day, a check reserves no slot: the
    counter after it is the counter before it or 0, so a counter that is not
    negative never grows. *)
Theorem quota_increment_then_check
    (E : Env) (w : World) (cid : Z) (c : Client.t) :
  client_row cid w = Some c ->
  (exists c',
      client_row cid (snd (increment_message_count cid w)) = Some c'
      /\ fst (increment_message_count cid w) = Ok tt
      /\ Client.messages_sent_today c' = Client.messages_sent_today c + 1)
  /\ (same_day E w c ->
      exists b,
        fst (check_rate_limit E cid w) = Ok b
        /\ (b = false <->
            Client.messages_sent_today c >= Client.daily_message_limit c)
        /\ clients (snd (check_rate_limit E cid w)) = clients w)
  /\ (exists c',
        client_row cid (snd (check_rate_limit E cid w)) = Some c'
        /\ (Client.messages_sent_today c' = Client.messages_sent_today c
            \/ Client.messages_sent_today c' = 0)
        /\ (0 <= Client.messages_sent_today c ->
            Client.messages_sent_today c' <= Client.messages_sent_today c)).
Proof.
  intro Hrow. pose proof (find_client_id _ _ _ Hrow) as Hid.
  split; [|split].
  - rewrite (increment_message_count_row w cid c Hrow). cbn [snd fst].
    exists (Client.set_messages_sent_today
              (Client.messages_sent_today c + 1) c).
    split; [|split; reflexivity].
    unfold client_row. cbn [clients]. eapply find_store_client; eauto.
  - intro Hday. rewrite (check_rate_limit_same_day E w cid c Hrow Hday).
    simpl. eexists. split; [reflexivity|]. split; [|reflexivity].
    rewrite Z.ltb_ge. lia.
  - destruct (same_day_dec E w c) as [Hday|Hday].
    + rewrite (check_rate_limit_same_day E w cid c Hrow Hday). simpl.
      exists c. split; [exact Hrow|]. split; [now left | lia].
    + rewrite (check_rate_limit_new_day E w cid c Hrow Hday). simpl.
      exists (rolled_over E w c). split; [|split].
      * unfold client_row. simpl. eapply find_store_client; eauto.
      * now right.
      * simpl. lia.
Qed.

Lemma quota_increment_then_check_witness :
  (exists c',
      client_row 1 (snd (increment_message_count 1
                           (world_of [acme 3 (Some today_noon)] [])))
      = Some c'
      /\ fst (increment_message_count 1
                (world_of [acme 3 (Some today_noon)] [])) = Ok tt
      /\ Client.messages_sent_today c' = 3 + 1)
  /\ (exists b,
        fst (check_rate_limit (sample_env api_ok today_noon) 1
               (world_of [acme 3 (Some today_noon)] [])) = Ok b
        /\ (b = false <-> 3 >= 3)
        /\ clients (snd (check_rate_limit (sample_env api_ok today_noon) 1
                            (world_of [acme 3 (Some today_noon)] [])))
           = [acme 3 (Some today_noon)]).
Proof.
  destruct (quota_increment_then_check
              (sample_env api_ok today_noon)
              (world_of [acme 3 (Some today_noon)] []) 1
              (acme 3 (Some today_noon)) eq_refl) as [Hinc [Hcheck _]].
  split.
  - exact Hinc.
  - exact (Hcheck eq_refl).
Defined.

(** C2 (as amended).  For a tenant whose [last_reset_date] is not on the day
    the clock shows (an earlier day, or never), [check_rate_limit] rewrites
    the row with [messages_sent_today = 0] and [last_reset_date] at the time
    of the reset, and answers from the counter at 0;
    [increment_message_count] does no rollover: it adds 1 to the stale
    counter and leaves [last_reset_date] as it was. *)
Theorem day_rollover_on_check_only
    (E : Env) (w : World) (cid : Z) (c : Client.t) :
  client_row cid w = Some c ->
  ~ same_day E w c ->
  (fst (check_rate_limit E cid w) = Ok (0 <? Client.daily_message_limit c)
   /\ exists c',
       client_row cid (snd (check_rate_limit E cid w)) = Some c'
       /\ Client.messages_sent_today c' = 0
       /\ Client.last_reset_date c' = Some (clock E (S (ticks w))))
  /\ (exists c',
         client_row cid (snd (increment_message_count cid w)) = Some c'
         /\ Client.messages_sent_today c' = Client.messages_sent_today c + 1
         /\ Client.last_reset_date c' = Client.last_reset_date c).
Proof.
  intros Hrow Hday. pose proof (find_client_id _ _ _ Hrow) as Hid. split.
  - rewrite (check_rate_limit_new_day E w cid c Hrow Hday). simpl.
    split; [reflexivity|].
    exists (rolled_over E w c). split; [|split; reflexivity].
    unfold client_row. simpl. eapply find_store_client; eauto.
  - rewrite (increment_message_count_row w cid c Hrow). cbn [snd].
    exists (Client.set_messages_sent_today
              (Client.messages_sent_today c + 1) c).
    split; [|split; reflexivity].
    unfold client_row. cbn [clients]. eapply find_store_client; eauto.
Qed.

Lemma day_rollover_on_check_only_witness :
  (fst (check_rate_limit (sample_env api_ok today_noon) 1
          (world_of [acme 5 (Some yesterday_noon)] [])) = Ok (0 <? 3)
   /\ exists c',
       client_row 1 (snd (check_rate_limit (sample_env api_ok today_noon) 1
                            (world_of [acme 5 (Some yesterday_noon)] [])))
       = Some c'
       /\ Client.messages_sent_today c' = 0
       /\ Client.last_reset_date c' = Some today_noon)
  /\ (exists c',
         client_row 1 (snd (increment_message_count 1
                              (world_of [acme 5 (Some yesterday_noon)] [])))
         = Some c'
         /\ Client.messages_sent_today c' = 5 + 1
         /\ Client.last_reset_date c' = Some yesterday_noon).
Proof.
  apply (day_rollover_on_check_only
           (sample_env api_ok today_noon)
           (world_of [acme 5 (Some yesterday_noon)] []) 1
           (acme 5 (Some yesterday_noon)) eq_refl).
  unfold same_day, today. simpl. discriminate.
Defined.

(** C2, the claim as it stands, fails for an increment: with the last reset
    yesterday and 5 messages counted, the first quota operation of the day
    being [increment_message_count] leaves the counter at 6, not 1, and the
    reset date at yesterday. *)
Lemma increment_does_not_roll_over :
  let E := sample_env api_ok today_noon in
  let w := world_of [acme 5 (Some yesterday_noon)] [] in
  date yesterday_noon < today E w
  /\ option_map Client.messages_sent_today
       (client_row 1 (snd (increment_message_count 1 w))) = Some 6
  /\ option_map Client.messages_sent_today
       (client_row 1 (snd (increment_message_count 1 w))) <> Some 1
  /\ option_map Client.last_reset_date
       (client_row 1 (snd (increment_message_count 1 w)))
     = Some (Some yesterday_noon).
Proof.
  repeat split; try reflexivity. discriminate.
Qed.

(** [check_rate_limit] always answers, and touches nothing but the tenant
    directory and the clock. *)
Lemma check_rate_limit_frame (E : Env) (cid : Z) (w : World) :
  exists b,
    fst (check_rate_limit E cid w) = Ok b
    /\ messages (snd (check_rate_limit E cid w)) = messages w
    /\ webhooks (snd (check_rate_limit E cid w)) = webhooks w
    /\ api_keys (snd (check_rate_limit E cid w)) = api_keys w
    /\ calls (snd (check_rate_limit E cid w)) = calls w.
Proof.
  destruct (client_row cid w) as [c|] eqn:Hrow.
  - destruct (same_day_dec E w c) as [Hday|Hday].
    + rewrite (check_rate_limit_same_day E w cid c Hrow Hday).
      eexists; repeat split; reflexivity.
    + rewrite (check_rate_limit_new_day E w cid c Hrow Hday).
      eexists; repeat split; reflexivity.
  - rewrite (check_rate_limit_unknown E w cid Hrow).
    eexists; repeat split; reflexivity.
Qed.

(** *** Policy handlers: the auto-reply switch *)

Lemma process_message_disabled
    (E : Env) (client : Client.t) (sender_id message_text : json) (w : World) :
  Client.auto_reply_enabled client = false ->
  process_message E client sender_id message_text w
  = (Ok tt, snd (check_rate_limit E (Client.id client) w)).
Proof.
  intro Hoff. destruct (check_rate_limit_frame E (Client.id client) w)
    as [b [Hb _]].
  unfold process_message, bind.
  destruct (check_rate_limit E (Client.id client) w) as [r w'].
  simpl in Hb. subst r. simpl. rewrite Hoff. now destruct b.
Qed.

Lemma process_comment_disabled
    (E : Env) (client : Client.t) (comment_id comment_text username : json)
    (w : World) :
  Client.auto_reply_enabled client = false ->
  process_comment E client comment_id comment_text username w
  = (Ok tt, snd (check_rate_limit E (Client.id client) w)).
Proof.
  intro Hoff. destruct (check_rate_limit_frame E (Client.id client) w)
    as [b [Hb _]].
  unfold process_comment, bind.
  destruct (check_rate_limit E (Client.id client) w) as [r w'].
  simpl in Hb. subst r. simpl. rewrite Hoff. now destruct b.
Qed.

(** C7 (as amended).  For a tenant with [auto_reply_enabled = False],
    [process_message] and [process_comment] return without selecting a
    response: no request goes to the Graph API and no message is stored.
    The quota check runs before the switch is read, so the tenant's row is
    left as it was when its counter was reset on the current day (or the
    tenant has no row), and otherwise is rewritten by the rollover, with
    [messages_sent_today = 0] and [last_reset_date] at the time of the
    check. *)
Theorem auto_reply_disabled_effects
    (E : Env) (client : Client.t)
    (sender_id message_text comment_id comment_text username : json)
    (w : World) :
  Client.auto_reply_enabled client = false ->
  let w' := snd (check_rate_limit E (Client.id client) w) in
  process_message E client sender_id message_text w = (Ok tt, w')
  /\ process_comment E client comment_id comment_text username w = (Ok tt, w')
  /\ calls w' = calls w
  /\ messages w' = messages w
  /\ webhooks w' = webhooks w
  /\ api_keys w' = api_keys w
  /\ (forall row, client_row (Client.id client) w = Some row ->
                  same_day E w row -> clients w' = clients w)
  /\ (client_row (Client.id client) w = None -> clients w' = clients w)
  /\ (forall row, client_row (Client.id client) w = Some row ->
                  ~ same_day E w row ->
                  clients w' = store_client (rolled_over E w row) (clients w)).
Proof.
  intros Hoff w'.
  destruct (check_rate_limit_frame E (Client.id client) w)
    as [b [_ [Hm [Hw [Hk Hc]]]]].
  split; [now apply process_message_disabled|].
  split; [now apply process_comment_disabled|].
  repeat split; try assumption; subst w'.
  - intros row Hrow Hday.
    now rewrite (check_rate_limit_same_day E w _ row Hrow Hday).
  - intro Hrow. now rewrite (check_rate_limit_unknown E w _ Hrow).
  - intros row Hrow Hday.
    now rewrite (check_rate_limit_new_day E w _ row Hrow Hday).
Qed.

Lemma auto_reply_disabled_effects_witness :
  process_message (sample_env api_ok today_noon)
    (Client.set_auto_reply_enabled false (acme 2 (Some today_noon)))
    (JStr "u7") (JStr "oi")
    (world_of [Client.set_auto_reply_enabled false (acme 2 (Some today_noon))]
              [])
  = (Ok tt,
     mkWorld [Client.set_auto_reply_enabled false (acme 2 (Some today_noon))]
             [] [] [] [] 1).
Proof.
  exact (proj1 (auto_reply_disabled_effects
                  (sample_env api_ok today_noon)
                  (Client.set_auto_reply_enabled false
                     (acme 2 (Some today_noon)))
                  (JStr "u7") (JStr "oi") (JStr "c9") (JStr "oi") (JStr "ana")
                  (world_of [Client.set_auto_reply_enabled false
                               (acme 2 (Some today_noon))] [])
                  eq_refl)).
Defined.

(** C7, the claim as it stands, fails on the first event of a day: the
    tenant has auto-reply off, 5 messages counted and its last reset
    yesterday; a direct message leaves no request and no message, but the
    tenant's counter is now 0 and its reset date today. *)
Lemma auto_reply_disabled_still_rolls_over :
  let E := sample_env api_ok today_noon in
  let off := Client.set_auto_reply_enabled false (acme 5 (Some yesterday_noon)) in
  let w' := snd (process_message E off (JStr "u7") (JStr "oi")
                   (world_of [off] [])) in
  Client.auto_reply_enabled off = false
  /\ calls w' = [] /\ messages w' = []
  /\ clients w' <> [off]
  /\ clients w'
     = [Client.set_auto_reply_enabled false (acme 0 (Some today_noon))].
Proof.
  repeat split; try reflexivity. discriminate.
Qed.

(** *** Event router: echoes *)

(** C9.  A messaging event whose [message] carries the [is_echo] flag is
    dropped before any handler runs: [process_messaging_event] leaves the
    world as it was, so it stores no message, sends no request to the Graph
    API and does not even consult the quota; with a well-formed [sender] it
    returns normally. *)
Theorem echo_event_is_dropped
    (E : Env) (event message : json) (client : Client.t) (w : World) :
  py_item event "message" = Ok message ->
  py_in "is_echo" message = Ok true ->
  snd (process_messaging_event E event client w) = w
  /\ messages (snd (process_messaging_event E event client w)) = messages w
  /\ calls (snd (process_messaging_event E event client w)) = calls w
  /\ (forall sender,
         py_get event "sender" (JObj []) = Ok (JObj sender) ->
         fst (process_messaging_event E event client w) = Ok tt).
Proof.
  intros Hmsg Hecho.
  destruct event as [| | | | |kv]; simpl in Hmsg; try discriminate.
  destruct (assoc "message" kv) as [m|] eqn:Hm; [|discriminate].
  inversion Hmsg; subst m.
  assert (Hw : snd (process_messaging_event E (JObj kv) client w) = w).
  { unfold process_messaging_event, bind, lift, ret. simpl.
    destruct (py_get _ "id" JNull); simpl; [|reflexivity].
    rewrite Hm. simpl. rewrite Hecho. reflexivity. }
  rewrite Hw. repeat split.
  intros sender Hs. simpl in Hs. inversion Hs as [Hs'].
  unfold process_messaging_event, bind, lift, ret. simpl.
  rewrite Hs'. simpl. rewrite Hm. simpl. rewrite Hecho. reflexivity.
Qed.

Lemma echo_event_is_dropped_witness :
  snd (process_messaging_event (sample_env api_ok today_noon)
         (JObj [("sender", JObj [("id", JStr "17840000000000001")]);
                ("message", JObj [("mid", JStr "m1"); ("text", JStr "oi");
                                  ("is_echo", JBool true)])])
         (acme 0 (Some today_noon))
         (world_of [acme 0 (Some today_noon)] []))
  = world_of [acme 0 (Some today_noon)] [].
Proof.
  exact (proj1 (echo_event_is_dropped
                  (sample_env api_ok today_noon)
                  (JObj [("sender", JObj [("id", JStr "17840000000000001")]);
                         ("message",
                          JObj [("mid", JStr "m1"); ("text", JStr "oi");
                                ("is_echo", JBool true)])])
                  (JObj [("mid", JStr "m1"); ("text", JStr "oi");
                         ("is_echo", JBool true)])
                  (acme 0 (Some today_noon))
                  (world_of [acme 0 (Some today_noon)] [])
                  eq_refl eq_refl)).
Defined.

(** *** Policy handlers: what is sent and what is stored *)

Lemma custom_loop_first_match
    (E : Env) (text_lower : string) (pre post : list (string * string))
    (k r : string) :
  (forall k' r', In (k', r') pre ->
                 contains (str_lower E k') text_lower = false) ->
  contains (str_lower E k) text_lower = true ->
  custom_loop E text_lower (pre ++ (k, r) :: post) = Some r.
Proof.
  intros Hpre Hk. induction pre as [|[k0 r0] pre IH]; simpl.
  - now rewrite Hk.
  - rewrite (Hpre k0 r0 (or_introl eq_refl)).
    apply IH. intros k' r' Hin. apply (Hpre k' r'). now right.
Qed.

Lemma custom_loop_no_match
    (E : Env) (text_lower : string) (items : list (string * string)) :
  (forall k r, In (k, r) items ->
               contains (str_lower E k) text_lower = false) ->
  custom_loop E text_lower items = None.
Proof.
  intro Hno. induction items as [|[k0 r0] items IH]; simpl; [reflexivity|].
  rewrite (Hno k0 r0 (or_introl eq_refl)).
  apply IH. intros k r Hin. apply (Hno k r). now right.
Qed.

Lemma increment_message_count_calls (cid : Z) (w : World) :
  calls (snd (increment_message_count cid w)) = calls w
  /\ messages (snd (increment_message_count cid w)) = messages w
  /\ fst (increment_message_count cid w) = Ok tt.
Proof.
  unfold increment_message_count, get_client, commit_client, bind, ret. simpl.
  destruct (find _ (clients w)); repeat split; reflexivity.
Qed.

(** [log_message] stores exactly one message when the recipient and the
    text can be stored, and none, raising, when one of them cannot; it sends
    no request. *)
Lemma log_message_stores
    (cid : Z) (recipient_id : json) (message_type : string)
    (message_text : json) (media_url : option string) (sent : bool)
    (error : option string) (w : World) :
  calls (snd (log_message cid recipient_id message_type message_text
                          media_url sent error w)) = calls w
  /\ (storable recipient_id = true ->
      storable_text message_text = true ->
      fst (log_message cid recipient_id message_type message_text
                       media_url sent error w)
      = Ok (Message.mk (next_id (map Message.id (messages w))) cid
                       recipient_id message_type message_text media_url
                       sent error)
      /\ messages (snd (log_message cid recipient_id message_type
                                    message_text media_url sent error w))
         = (messages w
              ++ [Message.mk (next_id (map Message.id (messages w))) cid
                             recipient_id message_type message_text media_url
                             sent error])%list)
  /\ (storable recipient_id && storable_text message_text = false ->
      log_message cid recipient_id message_type message_text
                  media_url sent error w = (Raise DatabaseError, w)).
Proof.
  unfold log_message, try_except, bind, add_message, raise, ret.
  cbn [Message.recipient_id Message.message_text].
  destruct (storable recipient_id && storable_text message_text) eqn:Hst.
  - apply andb_true_iff in Hst. destruct Hst as [Hr Ht].
    destruct sent.
    + match goal with
      | |- context [increment_message_count cid ?w1] =>
          destruct (increment_message_count_calls cid w1) as [Hc [Hm Hres]];
          destruct (increment_message_count cid w1) as [r w2]
      end.
      cbn [fst snd] in *. subst r. cbn [fst snd].
      rewrite Hc, Hm. cbn [calls messages].
      repeat split; intros; try reflexivity; discriminate.
    + cbn [fst snd calls messages].
      repeat split; intros; try reflexivity; discriminate.
  - cbn [fst snd]. split; [reflexivity|]. split; [|reflexivity].
    intros Hr Ht. rewrite Hr, Ht in Hst. discriminate.
Qed.

(** One call of [log_message] in the goal: name its outcome, keep that it
    sends no request. *)
Ltac log_step :=
  match goal with
  | |- context [log_message ?a ?b ?c ?d ?e ?f ?g ?w2] =>
      let Hcalls := fresh "Hcalls" in
      destruct (log_message_stores a b c d e f g w2) as [Hcalls _];
      destruct (log_message a b c d e f g w2) as [[?m|?ex] ?w3];
      cbn [fst snd] in *
  end.

(** With the quota open and auto-reply on, [process_message] sends one
    request carrying the selected response. *)
Lemma process_message_sends_selected
    (E : Env) (client : Client.t) (sender_id : json) (text : string)
    (w : World) :
  fst (check_rate_limit E (Client.id client) w) = Ok true ->
  Client.auto_reply_enabled client = true ->
  calls (snd (process_message E client sender_id (JStr text) w))
  = (calls w
       ++ [SendMessage (Client.access_token client)
                       (Client.instagram_account_id client) sender_id
                       (JStr (select_response E client (str_lower E text)))])%list.
Proof.
  intros Hopen Hon.
  destruct (check_rate_limit_frame E (Client.id client) w)
    as [b [_ [_ [_ [_ Hc]]]]].
  unfold process_message, bind at 1.
  destruct (check_rate_limit E (Client.id client) w) as [r w1].
  cbn [fst snd] in *. subst r. cbn [negb]. rewrite Hon. cbn [negb].
  unfold bind at 1, lift, py_lower.
  unfold try_except, bind at 1, InstagramAPI.send_message,
    InstagramAPI._make_request, record_call.
  destruct (graph_api E (calls w1) _) as [res|e]; unfold bind, ret;
    repeat log_step; cbn [fst snd calls] in *; congruence.
Qed.


(** C8 (as amended).  [process_message] scans the tenant's custom responses
    in their stored order; the first keyword whose lowered form is a
    substring of the lowered text decides: its mapped text is the response,
    verbatim, when that text is not empty, and the built-in category
    response when it is empty; when no keyword matches the built-in category
    response is used.  The response selected this way is the text of the
    request sent. *)
Theorem custom_response_precedence
    (E : Env) (client : Client.t) (text_lower : string) :
  (forall pre k r post,
      Client.custom_responses client = (pre ++ (k, r) :: post)%list ->
      (forall k' r', In (k', r') pre ->
                     contains (str_lower E k') text_lower = false) ->
      contains (str_lower E k) text_lower = true ->
      select_response E client text_lower
      = if String.eqb r "" then _get_default_response text_lower else r)
  /\ ((forall k r, In (k, r) (Client.custom_responses client) ->
                   contains (str_lower E k) text_lower = false) ->
      select_response E client text_lower = _get_default_response text_lower)
  /\ (forall sender_id text w,
         str_lower E text = text_lower ->
         fst (check_rate_limit E (Client.id client) w) = Ok true ->
         Client.auto_reply_enabled client = true ->
         calls (snd (process_message E client sender_id (JStr text) w))
         = (calls w
              ++ [SendMessage (Client.access_token client)
                              (Client.instagram_account_id client) sender_id
                              (JStr (select_response E client text_lower))])%list).
Proof.
  split; [|split].
  - intros pre k r post Hitems Hpre Hk. unfold select_response.
    rewrite Hitems, (custom_loop_first_match E text_lower pre post k r Hpre Hk).
    simpl. reflexivity.
  - intro Hno. unfold select_response.
    now rewrite (custom_loop_no_match E text_lower _ Hno).
  - intros sender_id text w Hlow Hopen Hon. subst text_lower.
    now apply process_message_sends_selected.
Qed.

Lemma custom_response_precedence_witness :
  select_response (sample_env api_ok today_noon) (acme 0 (Some today_noon))
                  (ascii_lower "ask about promo today") = "X".
Proof.
  exact (proj1 (custom_response_precedence
                  (sample_env api_ok today_noon) (acme 0 (Some today_noon))
                  (ascii_lower "ask about promo today"))
               [] "promo" "X" [] eq_refl
               (fun k' r' (H : In (k', r') []) => match H with end)
               eq_refl).
Defined.

(** C8, the claim as it stands, fails when the winning keyword is mapped to
    the empty text: with custom responses [{"promo": ""}] and the message
    "ask about promo today" the keyword matches, and the response sent is
    the built-in catch-all text, not the mapped one. *)
Lemma empty_custom_response_falls_back :
  let E := sample_env api_ok today_noon in
  let c := Client.set_custom_responses [("promo", "")]
             (acme 0 (Some today_noon)) in
  contains (str_lower E "promo") (str_lower E "ask about promo today") = true
  /\ select_response E c (str_lower E "ask about promo today")
     = "Obrigado pela sua mensagem! 🙂 Em breve retornaremos."
  /\ select_response E c (str_lower E "ask about promo today") <> ""
  /\ calls (snd (process_message E c (JStr "u7")
                   (JStr "ask about promo today") (world_of [c] [])))
     = [SendMessage "token-acme" "17840000000000001" (JStr "u7")
          (JStr "Obrigado pela sua mensagem! 🙂 Em breve retornaremos.")].
Proof.
  repeat split; try reflexivity. discriminate.
Qed.

(** Whatever the quota, [process_mention] of a tenant with auto-reply on
    sends its request. *)
Lemma process_mention_sends
    (E : Env) (client : Client.t) (sender_id media_id : json) (w : World) :
  Client.auto_reply_enabled client = true ->
  calls (snd (process_mention E client sender_id media_id w))
  = (calls w
       ++ [SendMessage (Client.access_token client)
                       (Client.instagram_account_id client) sender_id
                       (JStr "Obrigado por compartilhar! 🙏✨")])%list.
Proof.
  intro Hon. unfold process_mention. rewrite Hon. cbn [negb].
  unfold try_except, bind at 1, InstagramAPI.send_message,
    InstagramAPI._make_request, record_call.
  destruct (graph_api E (calls w) _) as [res|e]; unfold bind, ret;
    repeat log_step; cbn [fst snd calls] in *; congruence.
Qed.

(** C3.  The code at a story mention of a tenant whose quota is used up
    (limit 3, 3 messages counted today, auto-reply on): the quota check
    answers [False], and still the acknowledgement is sent, a message of
    kind [story_mention] is stored and the counter goes to 4. *)
Theorem story_mention_ignores_quota :
  let E := sample_env api_ok today_noon in
  let w := world_of [acme 3 (Some today_noon)] [] in
  let out := webhook_receive E "vt-acme"
               (delivery [messaging_entry [story_event "u7" "m1"]]) w in
  fst (check_rate_limit E 1 w) = Ok false
  /\ fst out = mkResponse (JStr "EVENT_RECEIVED") 200
  /\ calls (snd out)
     = [SendMessage "token-acme" "17840000000000001" (JStr "u7")
          (JStr "Obrigado por compartilhar! 🙏✨")]
  /\ messages (snd out)
     = [Message.mk 1 1 (JStr "u7") "story_mention"
          (JStr "Obrigado por compartilhar! 🙏✨") None true None]
  /\ client_row 1 (snd out) = Some (acme 4 (Some today_noon)).
Proof.
  repeat split; reflexivity.
Qed.

(** When the request of [process_mention] raises, the handler returns
    normally and nothing is stored. *)
Lemma process_mention_failure_unrecorded
    (E : Env) (client : Client.t) (sender_id media_id : json) (w : World)
    (e : exn) :
  Client.auto_reply_enabled client = true ->
  graph_api E (calls w)
    (SendMessage (Client.access_token client)
                 (Client.instagram_account_id client) sender_id
                 (JStr "Obrigado por compartilhar! 🙏✨")) = Raise e ->
  process_mention E client sender_id media_id w
  = (Ok tt,
     record_call
       (SendMessage (Client.access_token client)
                    (Client.instagram_account_id client) sender_id
                    (JStr "Obrigado por compartilhar! 🙏✨")) w).
Proof.
  intros Hon Hraise. unfold process_mention. rewrite Hon. cbn [negb].
  unfold try_except, bind at 1, InstagramAPI.send_message,
    InstagramAPI._make_request.
  now rewrite Hraise.
Qed.

(** The same for the reply of [process_comment] to a comment that holds one
    of the tenant's keywords. *)
Lemma process_comment_failure_unrecorded
    (E : Env) (client : Client.t) (comment_id username : json) (text : string)
    (w : World) (e : exn) :
  fst (check_rate_limit E (Client.id client) w) = Ok true ->
  Client.auto_reply_enabled client = true ->
  existsb (fun keyword => contains (str_lower E keyword) (str_lower E text))
          (Client.keywords client) = true ->
  graph_api E (calls w)
    (ReplyToComment (Client.access_token client) comment_id
       (_generate_comment_response E (str_lower E text) username)) = Raise e ->
  process_comment E client comment_id (JStr text) username w
  = (Ok tt,
     record_call
       (ReplyToComment (Client.access_token client) comment_id
          (_generate_comment_response E (str_lower E text) username))
       (snd (check_rate_limit E (Client.id client) w)))
  /\ messages (snd (check_rate_limit E (Client.id client) w)) = messages w.
Proof.
  intros Hopen Hon Hkw Hraise.
  destruct (check_rate_limit_frame E (Client.id client) w)
    as [b [_ [Hm [_ [_ Hc]]]]].
  split; [|exact Hm].
  unfold process_comment, bind at 1.
  destruct (check_rate_limit E (Client.id client) w) as [r w1].
  cbn [fst snd] in *. subst r. cbn [negb]. rewrite Hon. cbn [negb].
  unfold bind at 1, lift, py_lower. rewrite Hkw.
  unfold try_except, bind at 1, InstagramAPI.reply_to_comment,
    InstagramAPI._make_request.
  now rewrite Hc, Hraise.
Qed.

(** C4.  The code at a send that raises: the reply to a matching comment and
    the acknowledgement of a story mention are attempted and leave no
    message at all, where the direct-message handler stores one, unsent,
    with the error text. *)
Theorem failed_reply_leaves_no_record :
  let E := sample_env api_raises today_noon in
  let w := world_of [acme 0 (Some today_noon)] [] in
  let comment := webhook_receive E "vt-acme"
        (delivery [changes_entry [comment_change "c9" "qual o preço?" "ana"]])
        w in
  let story := webhook_receive E "vt-acme"
        (delivery [messaging_entry [story_event "u7" "m1"]]) w in
  let dm := webhook_receive E "vt-acme"
        (delivery [messaging_entry [dm_event "u7" "oi"]]) w in
  (calls (snd comment)
   = [ReplyToComment "token-acme" (JStr "c9")
        "@ana Oi! Enviamos os preços por DM! 📩"]
   /\ messages (snd comment) = [])
  /\ (calls (snd story)
      = [SendMessage "token-acme" "17840000000000001" (JStr "u7")
           (JStr "Obrigado por compartilhar! 🙏✨")]
      /\ messages (snd story) = [])
  /\ (calls (snd dm)
      = [SendMessage "token-acme" "17840000000000001" (JStr "u7")
           (JStr "Olá! 👋 Como posso ajudar você hoje?")]
      /\ messages (snd dm)
         = [Message.mk 1 1 (JStr "u7") "dm"
              (JStr "Olá! 👋 Como posso ajudar você hoje?") None false
              (Some "Expecting value")]).
Proof.
  repeat split; reflexivity.
Qed.

(** *** Tenant directory: resolution by verification token *)

(** The tenant [get_client_by_verify_token] gives is in the directory and
    its stored token is the supplied one, character for character; the
    lookup changes nothing. *)
Lemma resolve_exact (w : World) (tok : string) (c : Client.t) :
  fst (get_client_by_verify_token tok w) = Ok (Some c) ->
  In c (clients w) /\ Client.verify_token c = tok.
Proof.
  unfold get_client_by_verify_token. simpl. intro H. inversion H as [Hf].
  apply find_some in Hf. destruct Hf as [Hin Heq].
  split; [exact Hin | now apply String.eqb_eq].
Qed.

(** In a directory whose stored tokens are pairwise distinct, a tenant is
    the one resolved exactly when its token is the supplied one. *)
Lemma resolve_unique (w : World) (tok : string) (c : Client.t) :
  NoDup (map Client.verify_token (clients w)) ->
  In c (clients w) ->
  fst (get_client_by_verify_token tok w) = Ok (Some c)
  <-> Client.verify_token c = tok.
Proof.
  intros Hnd Hin. split; [intro H; now apply resolve_exact in H|].
  intro Htok. unfold get_client_by_verify_token. simpl. do 2 f_equal.
  induction (clients w) as [|a l IH]; simpl in *; [contradiction|].
  inversion Hnd as [|? ? Hnotin Hnd']; subst.
  destruct (String.eqb (Client.verify_token a) (Client.verify_token c)) eqn:Ha.
  - destruct Hin as [->|Hin]; [reflexivity|].
    apply String.eqb_eq in Ha. exfalso. apply Hnotin. rewrite Ha.
    now apply in_map.
  - destruct Hin as [->|Hin]; [|now apply IH].
    now rewrite String.eqb_refl in Ha.
Qed.

(** C6.  The code on a directory in which two tenants hold the same
    verification token, as [update_client] leaves it when tenant 2 is given
    the token of tenant 1 (no column constraint and no check refuses it):
    the supplied token equals the stored token of tenant 2 exactly, and the
    lookup gives tenant 1. *)
Theorem shared_verify_token_resolves_first_only :
  let w := world_of [acme 0 (Some today_noon); bistro 0 (Some today_noon)] [] in
  let w' := snd (update_client (sample_env api_ok today_noon) 2
                   [A_verify_token "vt-acme"] w) in
  fst (get_client_by_verify_token "vt-bistro" w)
  = Ok (Some (bistro 0 (Some today_noon)))
  /\ option_map Client.verify_token (client_row 2 w') = Some "vt-acme"
  /\ fst (get_client_by_verify_token "vt-acme" w')
     = Ok (Some (acme 0 (Some today_noon)))
  /\ fst (get_client_by_verify_token "vt-acme" w') <> Ok (client_row 2 w')
  /\ fst (get_client_by_verify_token "vt-bistro" w') = Ok None.
Proof.
  repeat split; try reflexivity. discriminate.
Qed.

(** *** Credential keys *)




(** *** Webhook delivery *)

Lemma for_each_app {A : Type} (l1 l2 : list A) (body : A -> M unit) (w : World) :
  for_each (l1 ++ l2) body w
  = match for_each l1 body w with
    | (Ok _, w') => for_each l2 body w'
    | (Raise e, w') => (Raise e, w')
    end.
Proof.
  revert w. induction l1 as [|x l1 IH]; intro w; simpl.
  - reflexivity.
  - unfold bind. destruct (body x w) as [[u|e] w1]; [apply IH | reflexivity].
Qed.

(** A loop stops at the first item whose body raises: the items after it
    are not run. *)
Lemma for_each_stops {A : Type} (l1 l2 : list A) (x : A) (body : A -> M unit)
    (w wa wb : World) (ex : exn) :
  for_each l1 body w = (Ok tt, wa) ->
  body x wa = (Raise ex, wb) ->
  for_each (l1 ++ x :: l2) body w = (Raise ex, wb).
Proof.
  intros H1 Hx. rewrite for_each_app, H1. simpl. unfold bind.
  now rewrite Hx.
Qed.

Lemma mark_webhook_processed_ok
    (E : Env) (webhook_id : Z) (error : option string) (w : World) :
  fst (mark_webhook_processed E webhook_id error w) = Ok tt.
Proof.
  unfold mark_webhook_processed.
  destruct (find _ (webhooks w)); reflexivity.
Qed.

(* ================================================================== *)
(** ** Further properties of the code *)

(** *** Relations kept along a run *)

Section Frame.

Variable R : World -> World -> Prop.
Hypothesis R_refl : forall w, R w w.
Hypothesis R_trans : forall w1 w2 w3, R w1 w2 -> R w2 w3 -> R w1 w3.

Lemma keeps_ret {A : Type} (a : A) : keeps R (ret a).
Proof. intro w. apply R_refl. Qed.

Lemma keeps_raise {A : Type} (e : exn) : keeps R (@raise A e).
Proof. intro w. apply R_refl. Qed.

Lemma keeps_lift {A : Type} (r : result A) : keeps R (lift r).
Proof. intro w. apply R_refl. Qed.

Lemma keeps_bind {A B : Type} (m : M A) (f : A -> M B) :
  keeps R m -> (forall a, keeps R (f a)) -> keeps R (bind m f).
Proof.
  intros Hm Hf w. unfold bind. specialize (Hm w).
  destruct (m w) as [[a|e] w1]; simpl in *; [|exact Hm].
  eapply R_trans; [exact Hm | apply Hf].
Qed.

Lemma keeps_try_except {A : Type} (m : M A) (h : exn -> M A) :
  keeps R m -> (forall e, keeps R (h e)) -> keeps R (try_except m h).
Proof.
  intros Hm Hh w. unfold try_except. specialize (Hm w).
  destruct (m w) as [[a|e] w1]; simpl in *; [exact Hm|].
  eapply R_trans; [exact Hm | apply Hh].
Qed.

Lemma keeps_for_each {A : Type} (l : list A) (body : A -> M unit) :
  (forall x, keeps R (body x)) -> keeps R (for_each l body).
Proof.
  intro Hbody. induction l as [|x l IH]; simpl.
  - apply keeps_ret.
  - apply keeps_bind; [apply Hbody | intros _; exact IH].
Qed.

(** A computation that first looks at the world it starts from. *)
Lemma keeps_reading {A : Type} (F : World -> M A) :
  (forall w0, keeps R (F w0)) -> keeps R (fun w => F w w).
Proof. intros HF w. apply (HF w w). Qed.

End Frame.

(** Walks down a computation built from the monad's operations, leaving the
    calls of the functions of the code to [prims]. *)
Ltac keep_with rf tr prims :=
  repeat first
    [ prims
    | apply (keeps_ret _ rf)
    | apply (keeps_lift _ rf)
    | apply (keeps_raise _ rf)
    | apply (keeps_bind _ tr); [ | intro ]
    | apply (keeps_try_except _ tr); [ | intro ]
    | apply (keeps_for_each _ rf tr); intro
    | match goal with
      | |- keeps _ (if ?b then _ else _) => destruct b
      end ].

(** *** Acting for one tenant *)

Lemma acts_for_refl (client : Client.t) (w : World) : acts_for client w w.
Proof.
  repeat split.
  - exists []. rewrite app_nil_r. split; [reflexivity | constructor].
  - exists []. rewrite app_nil_r. split; [reflexivity | constructor].
Qed.

Lemma acts_for_trans (client : Client.t) (w1 w2 w3 : World) :
  acts_for client w1 w2 -> acts_for client w2 w3 -> acts_for client w1 w3.
Proof.
  intros [[ms1 [Hm1 Hf1]] [[cs1 [Hc1 Hg1]] [Hk1 Hr1]]]
         [[ms2 [Hm2 Hf2]] [[cs2 [Hc2 Hg2]] [Hk2 Hr2]]].
  repeat split.
  - exists (ms1 ++ ms2)%list. rewrite Hm2, Hm1, app_assoc.
    split; [reflexivity | now apply Forall_app].
  - exists (cs1 ++ cs2)%list. rewrite Hc2, Hc1, app_assoc.
    split; [reflexivity | now apply Forall_app].
  - congruence.
  - intros other Hne. rewrite (Hr2 other Hne). now apply Hr1.
Qed.

(** A world that differs from [w] in the clock alone, or in the row of
    [client] alone. *)
Lemma acts_for_clients (client : Client.t) (w : World)
    (l : list Client.t) (n : nat) :
  (forall other, other <> Client.id client ->
                 find (fun c => Client.id c =? other) l
                 = client_row other w) ->
  acts_for client w
    (mkWorld l (messages w) (webhooks w) (api_keys w) (calls w) n).
Proof.
  intro Hrows. repeat split; simpl.
  - exists []. rewrite app_nil_r. split; [reflexivity | constructor].
  - exists []. rewrite app_nil_r. split; [reflexivity | constructor].
  - exact Hrows.
Qed.

Lemma find_store_client_other (l : list Client.t) (c : Client.t) (other : Z) :
  other <> Client.id c ->
  find (fun x => Client.id x =? other) (store_client c l)
  = find (fun x => Client.id x =? other) l.
Proof.
  intro Hne. induction l as [|a l IH]; simpl; [reflexivity|].
  destruct (Client.id a =? Client.id c) eqn:Ha; simpl.
  - apply Z.eqb_eq in Ha.
    assert (H1 : (Client.id c =? other) = false) by (apply Z.eqb_neq; congruence).
    assert (H2 : (Client.id a =? other) = false) by (apply Z.eqb_neq; congruence).
    now rewrite H1, H2.
  - now rewrite IH.
Qed.

Lemma keeps_check_rate_limit (E : Env) (client : Client.t) :
  keeps (acts_for client) (check_rate_limit E (Client.id client)).
Proof.
  intro w. destruct (client_row (Client.id client) w) as [c|] eqn:Hrow.
  - destruct (same_day_dec E w c) as [Hday|Hday].
    + rewrite (check_rate_limit_same_day E w _ c Hrow Hday). simpl.
      now apply acts_for_clients.
    + rewrite (check_rate_limit_new_day E w _ c Hrow Hday). simpl.
      apply acts_for_clients. intros other Hne.
      apply find_store_client_other. simpl.
      now rewrite (find_client_id _ _ _ Hrow).
  - rewrite (check_rate_limit_unknown E w _ Hrow). apply acts_for_refl.
Qed.

Lemma keeps_increment_message_count (client : Client.t) :
  keeps (acts_for client) (increment_message_count (Client.id client)).
Proof.
  intro w. destruct (client_row (Client.id client) w) as [c|] eqn:Hrow.
  - rewrite (increment_message_count_row w _ c Hrow). simpl.
    apply acts_for_clients. intros other Hne.
    apply find_store_client_other. simpl.
    now rewrite (find_client_id _ _ _ Hrow).
  - unfold increment_message_count, get_client, bind, ret.
    unfold client_row in Hrow. simpl. rewrite Hrow. apply acts_for_refl.
Qed.

Lemma keeps_log_message (client : Client.t) (recipient_id : json)
    (message_type : string) (message_text : json) (media_url : option string)
    (sent : bool) (error : option string) :
  keeps (acts_for client)
        (log_message (Client.id client) recipient_id message_type
                     message_text media_url sent error).
Proof.
  unfold log_message.
  apply (keeps_try_except _ (acts_for_trans client));
    [|intro; apply (keeps_raise _ (acts_for_refl client))].
  apply (keeps_reading (acts_for client)
           (fun w0 => add_message _ ;; _ ;; ret _)).
  intro w0.
  keep_with (acts_for_refl client) (acts_for_trans client)
            ltac:(apply keeps_increment_message_count).
  intro w. unfold add_message.
  cbn [Message.recipient_id Message.message_text].
  destruct (storable recipient_id && storable_text message_text);
    [|apply acts_for_refl].
  repeat split; simpl.
  - eexists. split; [reflexivity|]. now repeat constructor.
  - exists []. rewrite app_nil_r. split; [reflexivity | constructor].
Qed.

Lemma keeps_make_request (E : Env) (client : Client.t) (call : ApiCall) :
  issued_by client call ->
  keeps (acts_for client) (InstagramAPI._make_request E call).
Proof.
  intros Hcall w. unfold InstagramAPI._make_request, record_call.
  repeat split; simpl.
  - exists []. rewrite app_nil_r. split; [reflexivity | constructor].
  - eexists. split; [reflexivity|]. now repeat constructor.
Qed.

Ltac acts_prims :=
  first
    [ apply keeps_check_rate_limit
    | apply keeps_log_message
    | apply keeps_make_request; simpl; repeat split; reflexivity ].

Lemma keeps_process_message
    (E : Env) (client : Client.t) (sender_id message_text : json) :
  keeps (acts_for client) (process_message E client sender_id message_text).
Proof.
  unfold process_message, InstagramAPI.send_message.
  keep_with (acts_for_refl client) (acts_for_trans client) acts_prims.
Qed.

Lemma keeps_process_comment
    (E : Env) (client : Client.t) (comment_id comment_text username : json) :
  keeps (acts_for client)
        (process_comment E client comment_id comment_text username).
Proof.
  unfold process_comment, InstagramAPI.reply_to_comment.
  keep_with (acts_for_refl client) (acts_for_trans client) acts_prims.
Qed.

Lemma keeps_process_mention
    (E : Env) (client : Client.t) (sender_id media_id : json) :
  keeps (acts_for client) (process_mention E client sender_id media_id).
Proof.
  unfold process_mention, InstagramAPI.send_message.
  keep_with (acts_for_refl client) (acts_for_trans client) acts_prims.
Qed.

Lemma keeps_process_entry (E : Env) (client : Client.t) (entry : json) :
  keeps (acts_for client) (process_entry E entry client).
Proof.
  unfold process_entry, process_messaging_event, process_change_event.
  keep_with (acts_for_refl client) (acts_for_trans client)
            ltac:(first [ apply keeps_process_message
                        | apply keeps_process_comment
                        | apply keeps_process_mention ]).
Qed.

Lemma webhook_receive_world
    (E : Env) (verify_token : string) (data : json) (w : World) :
  snd (webhook_receive E verify_token data w)
  = snd (webhook_receive_try E verify_token data w).
Proof.
  unfold webhook_receive.
  now destruct (webhook_receive_try E verify_token data w) as [[r|e] w'].
Qed.

Lemma keeps_log_webhook (client : Client.t) (event_type : string)
    (payload : json) (client_id : Z) :
  keeps (acts_for client) (log_webhook event_type payload client_id).
Proof.
  intro w. unfold log_webhook. simpl. repeat split; simpl.
  - exists []. rewrite app_nil_r. split; [reflexivity | constructor].
  - exists []. rewrite app_nil_r. split; [reflexivity | constructor].
Qed.

Lemma keeps_mark_webhook_processed (E : Env) (client : Client.t)
    (webhook_id : Z) (error : option string) :
  keeps (acts_for client) (mark_webhook_processed E webhook_id error).
Proof.
  intro w. unfold mark_webhook_processed.
  destruct (find _ (webhooks w)); [|apply acts_for_refl].
  unfold bind, utcnow, commit_webhook. simpl. repeat split; simpl.
  - exists []. rewrite app_nil_r. split; [reflexivity | constructor].
  - exists []. rewrite app_nil_r. split; [reflexivity | constructor].
Qed.

(** Whatever the body of a delivery, the route acts for the tenant its
    path token resolves to and for no other: every message it stores
    carries that tenant's id, every request it sends is made under that
    tenant's credentials, messages and requests are only added, the
    credential keys are untouched and the row of every other tenant is as
    it was. *)
Theorem webhook_delivery_acts_for_its_tenant
    (E : Env) (verify_token : string) (data : json) (client : Client.t)
    (w : World) :
  fst (get_client_by_verify_token verify_token w) = Ok (Some client) ->
  acts_for client w (snd (webhook_receive E verify_token data w)).
Proof.
  intro Hclient. rewrite webhook_receive_world.
  unfold get_client_by_verify_token in Hclient. simpl in Hclient.
  inversion Hclient as [Hfind].
  unfold webhook_receive_try, bind at 1, get_client_by_verify_token.
  rewrite Hfind.
  match goal with
  | |- acts_for client w (snd (?m w)) =>
      revert w Hclient Hfind;
      assert (Hkeeps : keeps (acts_for client) m);
      [|intros w _ _; apply Hkeeps]
  end.
  keep_with (acts_for_refl client) (acts_for_trans client)
            ltac:(first [ apply keeps_process_entry
                        | apply keeps_log_webhook
                        | apply keeps_mark_webhook_processed ]).
Qed.

Lemma webhook_delivery_acts_for_its_tenant_witness :
  acts_for (acme 0 (Some today_noon))
    (world_of [acme 0 (Some today_noon); bistro 2 (Some yesterday_noon)] [])
    (snd (webhook_receive (sample_env api_ok today_noon) "vt-acme"
            (delivery [messaging_entry [dm_event "u7" "oi"]])
            (world_of [acme 0 (Some today_noon);
                       bistro 2 (Some yesterday_noon)] []))).
Proof.
  exact (webhook_delivery_acts_for_its_tenant
           (sample_env api_ok today_noon) "vt-acme"
           (delivery [messaging_entry [dm_event "u7" "oi"]])
           (acme 0 (Some today_noon))
           (world_of [acme 0 (Some today_noon);
                      bistro 2 (Some yesterday_noon)] [])
           eq_refl).
Defined.

(** *** The gates of the webhook routes *)

Lemma webhook_receive_inactive
    (E : Env) (verify_token : string) (data : json) (client : Client.t)
    (w : World) :
  fst (get_client_by_verify_token verify_token w) = Ok (Some client) ->
  Client.active client = false ->
  webhook_receive E verify_token data w
  = (mkResponse (JStr "CLIENT_INACTIVE") 200, w).
Proof.
  unfold webhook_receive, webhook_receive_try, bind,
    get_client_by_verify_token. simpl.
  intros H Hoff. inversion H as [Hf]. now rewrite Hf, Hoff.
Qed.

(** A delivery whose path token resolves to no tenant is answered
    [Forbidden] with status 403, and a delivery for a deactivated tenant
    [CLIENT_INACTIVE] with status 200; in both cases nothing is recorded,
    not even the webhook, and no entry is looked at. *)
Theorem webhook_receive_refuses_unknown_and_inactive
    (E : Env) (verify_token : string) (data : json) (w : World) :
  (fst (get_client_by_verify_token verify_token w) = Ok None ->
   webhook_receive E verify_token data w
   = (mkResponse (JStr "Forbidden") 403, w))
  /\ (forall client,
         fst (get_client_by_verify_token verify_token w) = Ok (Some client) ->
         Client.active client = false ->
         webhook_receive E verify_token data w
         = (mkResponse (JStr "CLIENT_INACTIVE") 200, w)).
Proof.
  unfold webhook_receive, webhook_receive_try, bind,
    get_client_by_verify_token. simpl.
  split.
  - intro H. inversion H as [Hf]. now rewrite Hf.
  - intros client H Hoff. inversion H as [Hf]. now rewrite Hf, Hoff.
Qed.

Lemma webhook_receive_refuses_unknown_and_inactive_witness :
  webhook_receive (sample_env api_ok today_noon) "vt-nobody"
    (delivery [messaging_entry [dm_event "u7" "oi"]])
    (world_of [acme 0 (Some today_noon)] [])
  = (mkResponse (JStr "Forbidden") 403,
     world_of [acme 0 (Some today_noon)] [])
  /\ webhook_receive (sample_env api_ok today_noon) "vt-acme"
       (delivery [messaging_entry [dm_event "u7" "oi"]])
       (world_of [Client.set_active false (acme 0 (Some today_noon))] [])
     = (mkResponse (JStr "CLIENT_INACTIVE") 200,
        world_of [Client.set_active false (acme 0 (Some today_noon))] []).
Proof.
  split.
  - exact (proj1 (webhook_receive_refuses_unknown_and_inactive
                    (sample_env api_ok today_noon) "vt-nobody"
                    (delivery [messaging_entry [dm_event "u7" "oi"]])
                    (world_of [acme 0 (Some today_noon)] []))
                 eq_refl).
  - exact (proj2 (webhook_receive_refuses_unknown_and_inactive
                    (sample_env api_ok today_noon) "vt-acme"
                    (delivery [messaging_entry [dm_event "u7" "oi"]])
                    (world_of [Client.set_active false
                                 (acme 0 (Some today_noon))] []))
                 (Client.set_active false (acme 0 (Some today_noon)))
                 eq_refl eq_refl).
Defined.

(** The verification route answers with status 200, and the challenge as
    body, exactly when the path token resolves to a tenant, [hub.mode] is
    [subscribe], [hub.verify_token] is the path token and [hub.challenge]
    is present; when only the challenge is missing it answers with status
    500; in every other case it answers [Forbidden] with status 403.  It
    never looks at the tenant's [active] flag and changes nothing. *)
Theorem webhook_verify_accepts_exactly
    (verify_token : string) (mode token challenge : option string)
    (w : World) :
  snd (Routes.webhook_verify verify_token mode token challenge w) = w
  /\ (status (fst (Routes.webhook_verify verify_token mode token challenge w))
      = 200
      <-> (exists client,
              fst (get_client_by_verify_token verify_token w)
              = Ok (Some client))
          /\ mode = Some "subscribe" /\ token = Some verify_token
          /\ challenge <> None)
  /\ (forall c,
         challenge = Some c ->
         status (fst (Routes.webhook_verify verify_token mode token
                        challenge w)) = 200 ->
         body (fst (Routes.webhook_verify verify_token mode token challenge w))
         = JStr c)
  /\ (status (fst (Routes.webhook_verify verify_token mode token challenge w))
      = 500
      <-> (exists client,
              fst (get_client_by_verify_token verify_token w)
              = Ok (Some client))
          /\ mode = Some "subscribe" /\ token = Some verify_token
          /\ challenge = None)
  /\ (status (fst (Routes.webhook_verify verify_token mode token challenge w))
      <> 200 ->
      status (fst (Routes.webhook_verify verify_token mode token challenge w))
      <> 500 ->
      fst (Routes.webhook_verify verify_token mode token challenge w)
      = mkResponse (JStr "Forbidden") 403).
Proof.
  unfold Routes.webhook_verify, get_client_by_verify_token. simpl.
  destruct (find _ (clients w)) as [client|].
  - destruct mode as [m|]; simpl.
    + destruct (String.eqb m "subscribe") eqn:Hm; simpl.
      * apply String.eqb_eq in Hm. subst m.
        destruct token as [t|]; simpl.
        -- destruct (String.eqb t verify_token) eqn:Ht; simpl.
           ++ apply String.eqb_eq in Ht. subst t.
              destruct challenge as [c|]; simpl;
                repeat split; eauto; intros;
                try discriminate; try congruence;
                repeat match goal with
                       | H : _ /\ _ |- _ => destruct H
                       end; try congruence; try discriminate.
           ++ apply String.eqb_neq in Ht.
              repeat split; try discriminate; try reflexivity;
                intros [_ [_ [H _]]]; congruence.
        -- repeat split; try discriminate; try reflexivity;
             intros [_ [_ [H _]]]; discriminate.
      * apply String.eqb_neq in Hm.
        repeat split; try discriminate; try reflexivity;
          intros [_ [H _]]; congruence.
    + repeat split; try discriminate; try reflexivity;
        intros [_ [H _]]; discriminate.
  - repeat split; try discriminate; try reflexivity;
      intros [[client H] _]; discriminate.
Qed.

Lemma webhook_verify_accepts_exactly_witness :
  status (fst (Routes.webhook_verify "vt-acme" (Some "subscribe")
                 (Some "vt-acme") (Some "1158201444")
                 (world_of [Client.set_active false
                              (acme 0 (Some today_noon))] []))) = 200
  /\ status (fst (Routes.webhook_verify "vt-acme" (Some "subscribe")
                    (Some "vt-acme") None
                    (world_of [acme 0 (Some today_noon)] []))) = 500.
Proof.
  split.
  - apply (proj2 (proj1 (proj2 (webhook_verify_accepts_exactly
                                  "vt-acme" (Some "subscribe")
                                  (Some "vt-acme") (Some "1158201444")
                                  (world_of [Client.set_active false
                                               (acme 0 (Some today_noon))]
                                            []))))).
    split; [|split; [reflexivity | split; [reflexivity | discriminate]]].
    exists (Client.set_active false (acme 0 (Some today_noon))). reflexivity.
  - apply (proj2 (proj1 (proj2 (proj2 (proj2
             (webhook_verify_accepts_exactly
                "vt-acme" (Some "subscribe") (Some "vt-acme") None
                (world_of [acme 0 (Some today_noon)] []))))))).
    split; [|split; [reflexivity | split; reflexivity]].
    exists (acme 0 (Some today_noon)). reflexivity.
Defined.

(** *** The event router: what it lets pass *)

(** The router hands nothing to a handler, and leaves the world as it was,
    for a messaging event whose [message] has no text or an empty one
    (an attachment, a reaction), for a messaging event with neither
    [message] nor [story_mention] (a read receipt, a postback), and for a
    change whose [field] is not [comments]; the last two return normally
    when the event is a dict with a well-formed sender. *)
Theorem router_ignores_other_events
    (E : Env) (client : Client.t) (w : World) :
  (forall kv m,
      assoc "message" kv = Some (JObj m) ->
      assoc "is_echo" m = None ->
      truthy (match assoc "text" m with Some t => t | None => JStr "" end)
      = false ->
      snd (process_messaging_event E (JObj kv) client w) = w)
  /\ (forall kv,
         assoc "message" kv = None ->
         assoc "story_mention" kv = None ->
         snd (process_messaging_event E (JObj kv) client w) = w
         /\ (forall sender,
                py_get (JObj kv) "sender" (JObj []) = Ok (JObj sender) ->
                fst (process_messaging_event E (JObj kv) client w) = Ok tt))
  /\ (forall kv,
         is_str "comments"
                (match assoc "field" kv with Some f => f | None => JNull end)
         = false ->
         process_change_event E (JObj kv) client w = (Ok tt, w)).
Proof.
  split; [|split].
  - intros kv m Hm Hecho Htext.
    unfold process_messaging_event, bind, lift, ret. simpl.
    destruct (py_get _ "id" JNull); simpl; [|reflexivity].
    rewrite Hm. simpl. rewrite Hecho. simpl. now rewrite Htext.
  - intros kv Hm Hs. split.
    + unfold process_messaging_event, bind, lift, ret. simpl.
      destruct (py_get _ "id" JNull); simpl; [|reflexivity].
      rewrite Hm. simpl. now rewrite Hs.
    + intros sender Hsender. simpl in Hsender. inversion Hsender as [Hs'].
      unfold process_messaging_event, bind, lift, ret. simpl.
      rewrite Hs'. simpl. rewrite Hm. simpl. now rewrite Hs.
  - intros kv Hfield.
    unfold process_change_event, bind, lift, ret. simpl.
    rewrite Hfield. now destruct (is_str "mentions" _).
Qed.

Lemma router_ignores_other_events_witness :
  snd (process_messaging_event (sample_env api_ok today_noon)
         (JObj [("sender", JObj [("id", JStr "u7")]);
                ("message",
                 JObj [("mid", JStr "m1");
                       ("attachments",
                        JArr [JObj [("type", JStr "image")]])])])
         (acme 0 (Some today_noon))
         (world_of [acme 0 (Some today_noon)] []))
  = world_of [acme 0 (Some today_noon)] []
  /\ process_change_event (sample_env api_ok today_noon)
       (JObj [("field", JStr "mentions");
              ("value", JObj [("media_id", JStr "179")])])
       (acme 0 (Some today_noon))
       (world_of [acme 0 (Some today_noon)] [])
     = (Ok tt, world_of [acme 0 (Some today_noon)] []).
Proof.
  destruct (router_ignores_other_events
              (sample_env api_ok today_noon) (acme 0 (Some today_noon))
              (world_of [acme 0 (Some today_noon)] [])) as [Hm [_ Hc]].
  split.
  - exact (Hm [("sender", JObj [("id", JStr "u7")]);
               ("message",
                JObj [("mid", JStr "m1");
                      ("attachments",
                       JArr [JObj [("type", JStr "image")]])])]
              [("mid", JStr "m1");
               ("attachments", JArr [JObj [("type", JStr "image")]])]
              eq_refl eq_refl eq_refl).
  - exact (Hc [("field", JStr "mentions");
               ("value", JObj [("media_id", JStr "179")])] eq_refl).
Defined.

(** *** Policy handlers: the quota gate and the keyword gate *)

Lemma process_message_blocked
    (E : Env) (client : Client.t) (sender_id message_text : json) (w : World) :
  fst (check_rate_limit E (Client.id client) w) = Ok false ->
  process_message E client sender_id message_text w
  = (Ok tt, snd (check_rate_limit E (Client.id client) w)).
Proof.
  intro Hfull. unfold process_message, bind.
  destruct (check_rate_limit E (Client.id client) w) as [r w1].
  simpl in *. now subst r.
Qed.

(** When the quota check answers [False], [process_message] and
    [process_comment] return at once: no request is sent and no message is
    stored; the world is the one the check left. *)
Theorem exhausted_quota_blocks_replies
    (E : Env) (client : Client.t)
    (sender_id message_text comment_id comment_text username : json)
    (w : World) :
  fst (check_rate_limit E (Client.id client) w) = Ok false ->
  process_message E client sender_id message_text w
  = (Ok tt, snd (check_rate_limit E (Client.id client) w))
  /\ process_comment E client comment_id comment_text username w
     = (Ok tt, snd (check_rate_limit E (Client.id client) w))
  /\ calls (snd (check_rate_limit E (Client.id client) w)) = calls w
  /\ messages (snd (check_rate_limit E (Client.id client) w)) = messages w.
Proof.
  intro Hfull.
  destruct (check_rate_limit_frame E (Client.id client) w)
    as [b [_ [Hm [_ [_ Hc]]]]].
  unfold process_message, process_comment, bind.
  destruct (check_rate_limit E (Client.id client) w) as [r w1].
  simpl in *. subst r. simpl. auto.
Qed.

Lemma exhausted_quota_blocks_replies_witness :
  process_message (sample_env api_ok today_noon) (acme 3 (Some today_noon))
    (JStr "u7") (JStr "oi") (world_of [acme 3 (Some today_noon)] [])
  = (Ok tt, mkWorld [acme 3 (Some today_noon)] [] [] [] [] 1).
Proof.
  exact (proj1 (exhausted_quota_blocks_replies
                  (sample_env api_ok today_noon) (acme 3 (Some today_noon))
                  (JStr "u7") (JStr "oi") (JStr "c9") (JStr "preço?")
                  (JStr "ana") (world_of [acme 3 (Some today_noon)] [])
                  eq_refl)).
Defined.

(** A comment that holds none of the tenant's keywords gets no reply: no
    request is sent and no message is stored, whatever the quota and the
    auto-reply switch; the world is the one the quota check left. *)
Theorem comment_without_keyword_gets_no_reply
    (E : Env) (client : Client.t) (comment_id username : json)
    (text : string) (w : World) :
  existsb (fun keyword => contains (str_lower E keyword) (str_lower E text))
          (Client.keywords client) = false ->
  process_comment E client comment_id (JStr text) username w
  = (Ok tt, snd (check_rate_limit E (Client.id client) w))
  /\ calls (snd (check_rate_limit E (Client.id client) w)) = calls w
  /\ messages (snd (check_rate_limit E (Client.id client) w)) = messages w.
Proof.
  intro Hno.
  destruct (check_rate_limit_frame E (Client.id client) w)
    as [b [Hb [Hm [_ [_ Hc]]]]].
  split; [|split; assumption].
  unfold process_comment, bind at 1.
  destruct (check_rate_limit E (Client.id client) w) as [r w1].
  simpl in *. subst r.
  destruct b; simpl; [|reflexivity].
  destruct (Client.auto_reply_enabled client); simpl; [|reflexivity].
  unfold bind, lift. simpl. now rewrite Hno.
Qed.

Lemma comment_without_keyword_gets_no_reply_witness :
  process_comment (sample_env api_ok today_noon) (acme 0 (Some today_noon))
    (JStr "c9") (JStr "bom dia") (JStr "ana")
    (world_of [acme 0 (Some today_noon)] [])
  = (Ok tt, mkWorld [acme 0 (Some today_noon)] [] [] [] [] 1).
Proof.
  exact (proj1 (comment_without_keyword_gets_no_reply
                  (sample_env api_ok today_noon) (acme 0 (Some today_noon))
                  (JStr "c9") (JStr "ana") "bom dia"
                  (world_of [acme 0 (Some today_noon)] []) eq_refl)).
Defined.

(** The response [process_message] selects is never the empty text: an
    empty custom response gives way to a built-in one, and every built-in
    response is a non-empty text. *)
Theorem selected_response_is_never_empty
    (E : Env) (client : Client.t) (text_lower : string) :
  select_response E client text_lower <> "".
Proof.
  assert (Hdefault : _get_default_response text_lower <> "").
  { unfold _get_default_response.
    repeat match goal with
           | |- (if ?b then _ else _) <> _ => destruct b
           end; discriminate. }
  unfold select_response.
  destruct (custom_loop E text_lower (Client.custom_responses client))
    as [r|]; simpl; [|exact Hdefault].
  destruct (String.eqb r "") eqn:Hr; [exact Hdefault|].
  now apply String.eqb_neq.
Qed.

(** Every reply to a comment is addressed to the commenter: whatever the
    category the comment falls in, the text is [@], the username and a
    space, followed by the category's sentence. *)
Theorem comment_reply_is_addressed_to_commenter
    (E : Env) (text_lower : string) (username : json) :
  exists sentence,
    _generate_comment_response E text_lower username
    = "@" ++ format_value E username ++ " " ++ sentence
    /\ sentence <> "".
Proof.
  unfold _generate_comment_response.
  repeat match goal with
         | |- context [if ?b then _ else _] => destruct b
         end;
    eexists; (split; [reflexivity | discriminate]).
Qed.

(** *** The quota along a reply *)

Lemma increment_message_count_clients (cid : Z) (w : World) :
  clients (snd (increment_message_count cid w)) = counted cid (clients w).
Proof.
  unfold increment_message_count, get_client, commit_client, counted, bind,
    ret. simpl.
  now destruct (find _ (clients w)).
Qed.

Lemma log_message_clients
    (cid : Z) (recipient_id : json) (message_type : string)
    (message_text : json) (media_url : option string) (sent : bool)
    (error : option string) (w : World) :
  clients (snd (log_message cid recipient_id message_type message_text
                            media_url sent error w))
  = if storable recipient_id && storable_text message_text && sent
    then counted cid (clients w)
    else clients w.
Proof.
  unfold log_message, try_except, bind, add_message, raise, ret.
  cbn [Message.recipient_id Message.message_text].
  destruct (storable recipient_id && storable_text message_text);
    [|reflexivity].
  destruct sent; [|reflexivity].
  match goal with
  | |- context [increment_message_count cid ?w1] =>
      pose proof (increment_message_count_clients cid w1) as Hc;
      destruct (increment_message_count_calls cid w1) as [_ [_ Hr]];
      destruct (increment_message_count cid w1) as [r w2]
  end.
  cbn [fst snd] in *. subst r. exact Hc.
Qed.

(** The directory after [process_message] went through its two gates: one
    message more is counted exactly when the request returned a result that
    counts as sent and the message could be stored. *)
Lemma process_message_clients
    (E : Env) (client : Client.t) (sender_id : json) (text : string)
    (w : World) :
  fst (check_rate_limit E (Client.id client) w) = Ok true ->
  Client.auto_reply_enabled client = true ->
  clients (snd (process_message E client sender_id (JStr text) w))
  = match graph_api E (calls w)
            (SendMessage (Client.access_token client)
                         (Client.instagram_account_id client) sender_id
                         (JStr (select_response E client (str_lower E text))))
    with
    | Ok res =>
        if storable sender_id && truthy res then
          counted (Client.id client)
                  (clients (snd (check_rate_limit E (Client.id client) w)))
        else clients (snd (check_rate_limit E (Client.id client) w))
    | Raise _ => clients (snd (check_rate_limit E (Client.id client) w))
    end.
Proof.
  intros Hopen Hon.
  destruct (check_rate_limit_frame E (Client.id client) w)
    as [b [_ [_ [_ [_ Hc]]]]].
  unfold process_message, bind at 1.
  destruct (check_rate_limit E (Client.id client) w) as [r w1].
  cbn [fst snd] in *. subst r. cbn [negb]. rewrite Hon. cbn [negb].
  unfold bind at 1, lift, py_lower.
  unfold try_except, bind at 1, InstagramAPI.send_message,
    InstagramAPI._make_request.
  rewrite Hc.
  destruct (graph_api E (calls w) _) as [res|e]; unfold bind, ret.
  - match goal with
    | |- context [log_message ?a ?b ?c ?d ?e ?f ?g ?w2] =>
        pose proof (log_message_clients a b c d e f g w2) as Hl;
        destruct (log_message_stores a b c d e f g w2) as [_ [_ Hbad]];
        destruct (log_message a b c d e f g w2) as [[m|ex] w3]
    end; cbn [fst snd storable_text] in *; rewrite ?andb_true_r in *.
    + exact Hl.
    + match goal with
      | |- context [log_message ?a ?b ?c ?d ?e ?f ?g w3] =>
          pose proof (log_message_clients a b c d e f g w3) as Hl2;
          destruct (log_message a b c d e f g w3) as [[m|ex2] w4]
      end; cbn [fst snd] in *; rewrite andb_false_r in Hl2; rewrite Hl2;
        exact Hl.
  - match goal with
    | |- context [log_message ?a ?b ?c ?d ?e ?f ?g ?w2] =>
        pose proof (log_message_clients a b c d e f g w2) as Hl;
        destruct (log_message a b c d e f g w2) as [[m|ex] w3]
    end; cbn [fst snd] in *; rewrite andb_false_r in Hl; exact Hl.
Qed.

Lemma client_row_clients (cid : Z) (w w' : World) :
  clients w' = clients w -> client_row cid w' = client_row cid w.
Proof. unfold client_row. now intros ->. Qed.



(** Run one after the other, direct messages never take a tenant over its
    quota: if the counter is between 0 and the limit before
    [process_message], it is between 0 and the limit after it, whatever the
    day, the message, the sender and the outcome of the request. *)
Theorem process_message_stays_within_quota
    (E : Env) (client c : Client.t) (sender_id message_text : json)
    (w : World) :
  client_row (Client.id client) w = Some c ->
  0 <= Client.messages_sent_today c <= Client.daily_message_limit c ->
  exists c',
    client_row (Client.id client)
               (snd (process_message E client sender_id message_text w))
    = Some c'
    /\ Client.daily_message_limit c' = Client.daily_message_limit c
    /\ 0 <= Client.messages_sent_today c' <= Client.daily_message_limit c'.
Proof.
  intros Hrow Hin.
  pose proof (find_client_id _ _ _ Hrow) as Hid.
  (* the row and the answer the quota check leaves *)
  assert (Hcheck : exists c1 w1,
             check_rate_limit E (Client.id client) w
             = (Ok (Client.messages_sent_today c1
                      <? Client.daily_message_limit c1), w1)
             /\ client_row (Client.id client) w1 = Some c1
             /\ Client.daily_message_limit c1 = Client.daily_message_limit c
             /\ 0 <= Client.messages_sent_today c1
                  <= Client.daily_message_limit c1).
  { destruct (same_day_dec E w c) as [Hday|Hday].
    - rewrite (check_rate_limit_same_day E w _ c Hrow Hday).
      exists c. eexists. split; [reflexivity|]. repeat split; try lia.
      exact Hrow.
    - rewrite (check_rate_limit_new_day E w _ c Hrow Hday).
      exists (rolled_over E w c). eexists. split; [reflexivity|].
      repeat split; simpl; try lia.
      unfold client_row. simpl. eapply find_store_client; eauto. }
  destruct Hcheck as [c1 [w1 [Hcheck [Hrow1 [Hlim1 Hin1]]]]].
  destruct (Client.messages_sent_today c1 <? Client.daily_message_limit c1)
    eqn:Hallowed.
  - destruct (Client.auto_reply_enabled client) eqn:Hon.
    + destruct message_text as [| | |text| |];
        try (exists c1; unfold process_message, bind, lift; rewrite Hcheck;
             simpl; rewrite Hon; simpl; repeat split; try lia; assumption).
      assert (Hopen : fst (check_rate_limit E (Client.id client) w) = Ok true)
        by now rewrite Hcheck.
      pose proof (process_message_clients E client sender_id text w
                    Hopen Hon) as Hcl.
      rewrite Hcheck in Hcl. cbn [snd] in Hcl.
      apply Z.ltb_lt in Hallowed.
      assert (Hsame : forall w', clients w' = clients w1 ->
                exists c', client_row (Client.id client) w' = Some c'
                  /\ Client.daily_message_limit c'
                     = Client.daily_message_limit c
                  /\ 0 <= Client.messages_sent_today c'
                       <= Client.daily_message_limit c').
      { intros w' Hw'. exists c1.
        rewrite (client_row_clients _ _ _ Hw'). repeat split; try lia.
        assumption. }
      destruct (graph_api E (calls w) _) as [res|e]; [|now apply Hsame].
      destruct (storable sender_id && truthy res); [|now apply Hsame].
      exists (Client.set_messages_sent_today
                (Client.messages_sent_today c1 + 1) c1).
      split; [|simpl; lia].
      unfold client_row in *. rewrite Hcl. unfold counted. rewrite Hrow1.
      eapply find_store_client; [exact Hrow1|].
      exact (find_client_id _ _ _ Hrow1).
    + exists c1. rewrite (process_message_disabled E client _ _ w Hon).
      rewrite Hcheck. simpl. repeat split; try lia. assumption.
  - exists c1.
    assert (Hfull : fst (check_rate_limit E (Client.id client) w) = Ok false)
      by now rewrite Hcheck.
    rewrite (process_message_blocked E client sender_id message_text w
               Hfull).
    rewrite Hcheck. simpl. repeat split; try lia. assumption.
Qed.

Lemma process_message_stays_within_quota_witness :
  exists c',
    client_row 1
      (snd (process_message (sample_env api_ok today_noon)
              (acme 3 (Some yesterday_noon)) (JStr "u7") (JStr "oi")
              (world_of [acme 3 (Some yesterday_noon)] [])))
    = Some c'
    /\ Client.daily_message_limit c' = 3
    /\ 0 <= Client.messages_sent_today c' <= Client.daily_message_limit c'.
Proof.
  apply (process_message_stays_within_quota
           (sample_env api_ok today_noon) (acme 3 (Some yesterday_noon))
           (acme 3 (Some yesterday_noon)) (JStr "u7") (JStr "oi")
           (world_of [acme 3 (Some yesterday_noon)] []) eq_refl).
  simpl. lia.
Defined.

(** The day rollover is idempotent: on a clock that stays within one day, a
    second [check_rate_limit] gives the answer of the first and leaves the
    directory as the first left it; the counter is not reset again. *)
Theorem second_check_of_the_day_changes_nothing
    (E : Env) (cid d : Z) (c : Client.t) (w : World) :
  (forall n, date (clock E n) = d) ->
  client_row cid w = Some c ->
  fst (check_rate_limit E cid (snd (check_rate_limit E cid w)))
  = fst (check_rate_limit E cid w)
  /\ clients (snd (check_rate_limit E cid (snd (check_rate_limit E cid w))))
     = clients (snd (check_rate_limit E cid w)).
Proof.
  intros Hclock Hrow. pose proof (find_client_id _ _ _ Hrow) as Hid.
  destruct (same_day_dec E w c) as [Hday|Hday].
  - rewrite (check_rate_limit_same_day E w cid c Hrow Hday). cbn [fst snd].
    rewrite (check_rate_limit_same_day E _ cid c); [split; reflexivity| |].
    + exact Hrow.
    + unfold same_day, today in *. cbn [ticks]. now rewrite Hclock in *.
  - rewrite (check_rate_limit_new_day E w cid c Hrow Hday). cbn [fst snd].
    rewrite (check_rate_limit_same_day E _ cid (rolled_over E w c)).
    + split; reflexivity.
    + unfold client_row. cbn [clients].
      eapply find_store_client; [exact Hrow | exact Hid].
    + unfold same_day, today, rolled_over. cbn. now rewrite !Hclock.
Qed.

Lemma second_check_of_the_day_changes_nothing_witness :
  fst (check_rate_limit (sample_env api_ok today_noon) 1
         (snd (check_rate_limit (sample_env api_ok today_noon) 1
                 (world_of [acme 5 (Some yesterday_noon)] []))))
  = fst (check_rate_limit (sample_env api_ok today_noon) 1
           (world_of [acme 5 (Some yesterday_noon)] []))
  /\ clients (snd (check_rate_limit (sample_env api_ok today_noon) 1
                     (snd (check_rate_limit (sample_env api_ok today_noon) 1
                             (world_of [acme 5 (Some yesterday_noon)] [])))))
     = clients (snd (check_rate_limit (sample_env api_ok today_noon) 1
                       (world_of [acme 5 (Some yesterday_noon)] []))).
Proof.
  exact (second_check_of_the_day_changes_nothing
           (sample_env api_ok today_noon) 1 (date today_noon)
           (acme 5 (Some yesterday_noon))
           (world_of [acme 5 (Some yesterday_noon)] [])
           (fun _ => eq_refl) eq_refl).
Defined.

(** *** The tenant directory *)

Lemma replace_client_store (c : Client.t) (l : list Client.t) :
  replace_client (Client.id c) c l = store_client c l.
Proof.
  induction l as [|x l IH]; simpl; [reflexivity|]. now rewrite IH.
Qed.



(** [update_client] on a tenant of the directory: the clock is read once for
    the stamp, then the commit goes through or is refused. *)
Lemma update_client_found
    (E : Env) (cid : Z) (kwargs : list Attr) (c : Client.t) (w : World) :
  client_row cid w = Some c ->
  update_client E cid kwargs w
  = if commit_fails c (fold_left setattr kwargs c) kwargs (clients w) then
      (Raise DatabaseError,
       mkWorld (clients w) (messages w) (webhooks w) (api_keys w) (calls w)
               (S (ticks w)))
    else
      (Ok (Some (fold_left setattr kwargs c)),
       mkWorld (replace_client (Client.id c) (fold_left setattr kwargs c)
                               (clients w))
               (messages w) (webhooks w) (api_keys w) (calls w)
               (S (ticks w))).
Proof.
  unfold client_row. intro Hrow.
  unfold update_client, try_except, bind, get_client, utcnow, commit_update,
    raise, ret.
  cbn [fst snd clients]. rewrite Hrow. cbn [fst snd clients].
  now destruct (commit_fails _ _ _ _).
Qed.

Lemma update_client_unknown
    (E : Env) (cid : Z) (kwargs : list Attr) (w : World) :
  client_row cid w = None -> update_client E cid kwargs w = (Ok None, w).
Proof.
  unfold client_row. intro Hrow.
  unfold update_client, try_except, bind, get_client, ret.
  cbn [fst snd]. now rewrite Hrow.
Qed.



Lemma store_client_twice (c : Client.t) (l : list Client.t) :
  store_client c (store_client c l) = store_client c l.
Proof.
  induction l as [|x l IH]; simpl; [reflexivity|].
  destruct (Client.id x =? Client.id c) eqn:Hx; simpl.
  - now rewrite Z.eqb_refl.
  - now rewrite Hx, IH.
Qed.

(** Switching the [active] flag of a tenant of the directory: the commit is
    never refused, the row is rewritten and the clock read once. *)
Lemma set_active_run
    (E : Env) (cid : Z) (b : bool) (c : Client.t) (w : World) :
  client_row cid w = Some c ->
  update_client E cid [A_active b] w
  = (Ok (Some (Client.set_active b c)),
     mkWorld (store_client (Client.set_active b c) (clients w)) (messages w)
             (webhooks w) (api_keys w) (calls w) (S (ticks w))).
Proof.
  intro Hrow. rewrite (update_client_found E cid [A_active b] c w Hrow).
  unfold commit_fails.
  cbn [fold_left setattr existsb is_none orb Client.id Client.email
       Client.set_active].
  rewrite Z.eqb_refl, String.eqb_refl. cbn [negb andb orb].
  now rewrite <- (replace_client_store (Client.set_active b c)).
Qed.

(** Deactivating a tenant twice is deactivating it once: the second call
    returns what the first returned and leaves the directory, the messages,
    the webhooks, the keys and the requests as the first left them (the
    clock is read again for the stamp).  For a tenant of the directory both
    calls return [True], the row is then inactive and the soft-delete route
    answers 200; for an id that is not in the directory the call returns
    [False], changes nothing, and the route answers 404. *)
Theorem deactivate_client_is_idempotent (E : Env) (cid : Z) (w : World) :
  fst (deactivate_client E cid (snd (deactivate_client E cid w)))
  = fst (deactivate_client E cid w)
  /\ clients (snd (deactivate_client E cid (snd (deactivate_client E cid w))))
     = clients (snd (deactivate_client E cid w))
  /\ messages (snd (deactivate_client E cid
                      (snd (deactivate_client E cid w)))) = messages w
  /\ webhooks (snd (deactivate_client E cid
                      (snd (deactivate_client E cid w)))) = webhooks w
  /\ api_keys (snd (deactivate_client E cid
                      (snd (deactivate_client E cid w)))) = api_keys w
  /\ calls (snd (deactivate_client E cid
                   (snd (deactivate_client E cid w)))) = calls w
  /\ (forall c,
         client_row cid w = Some c ->
         fst (deactivate_client E cid w) = Ok true
         /\ client_row cid (snd (deactivate_client E cid w))
            = Some (Client.set_active false c)
         /\ status (fst (Routes.delete_client E cid w)) = 200)
  /\ (client_row cid w = None ->
      deactivate_client E cid w = (Ok false, w)
      /\ status (fst (Routes.delete_client E cid w)) = 404).
Proof.
  unfold Routes.delete_client, deactivate_client, bind, ret.
  destruct (client_row cid w) as [c|] eqn:Hrow.
  - pose proof (find_client_id _ _ _ Hrow) as Hid.
    rewrite (set_active_run E cid false c w Hrow). cbn [fst snd].
    assert (Hrow' : client_row cid
                      (mkWorld (store_client (Client.set_active false c)
                                             (clients w))
                               (messages w) (webhooks w) (api_keys w)
                               (calls w) (S (ticks w)))
                    = Some (Client.set_active false c)).
    { unfold client_row. cbn [clients].
      eapply find_store_client; [exact Hrow | exact Hid]. }
    rewrite (set_active_run E cid false _ _ Hrow').
    cbn [fst snd clients messages webhooks api_keys calls status].
    split; [reflexivity|].
    split; [exact (store_client_twice (Client.set_active false c)
                     (clients w))|].
    do 4 (split; [reflexivity|]).
    split.
    + intros row Hr. inversion Hr; subst row.
      split; [reflexivity|]. split; [exact Hrow' | reflexivity].
    + intro H. discriminate.
  - rewrite (update_client_unknown E cid _ w Hrow). cbn [fst snd].
    rewrite (update_client_unknown E cid _ w Hrow).
    cbn [fst snd status].
    do 6 (split; [reflexivity|]).
    split; [intros c H; discriminate|].
    intros _. split; reflexivity.
Qed.

Lemma deactivate_client_is_idempotent_witness :
  fst (deactivate_client (sample_env api_ok today_noon) 1
         (world_of [acme 0 (Some today_noon)] []))
  = Ok true
  /\ client_row 1
       (snd (deactivate_client (sample_env api_ok today_noon) 1
               (world_of [acme 0 (Some today_noon)] [])))
     = Some (Client.set_active false (acme 0 (Some today_noon)))
  /\ status (fst (Routes.delete_client (sample_env api_ok today_noon) 1
                    (world_of [acme 0 (Some today_noon)] []))) = 200.
Proof.
  destruct (deactivate_client_is_idempotent
              (sample_env api_ok today_noon) 1
              (world_of [acme 0 (Some today_noon)] []))
    as [_ [_ [_ [_ [_ [_ [H _]]]]]]].
  exact (H (acme 0 (Some today_noon)) eq_refl).
Defined.

Lemma find_token_store_client
    (tok : string) (c c' : Client.t) (l : list Client.t) :
  find (fun x => String.eqb (Client.verify_token x) tok) l = Some c ->
  find (fun x => Client.id x =? Client.id c) l = Some c ->
  Client.verify_token c' = Client.verify_token c ->
  Client.id c' = Client.id c ->
  find (fun x => String.eqb (Client.verify_token x) tok) (store_client c' l)
  = Some c'.
Proof.
  intros Htok Hid Ht Hi.
  pose proof (find_some _ _ Htok) as [_ Hc]. apply String.eqb_eq in Hc.
  induction l as [|x l IH]; simpl in *; [discriminate|].
  rewrite Hi.
  destruct (Client.id x =? Client.id c) eqn:Hx.
  - simpl. rewrite Ht, Hc. now rewrite String.eqb_refl.
  - simpl. destruct (String.eqb (Client.verify_token x) tok) eqn:Hxt.
    + inversion Htok; subst x. now rewrite Z.eqb_refl in Hx.
    + now apply IH.
Qed.

(** The soft delete closes the webhook of a tenant: once [deactivate_client]
    has run, a delivery on the tenant's path is answered [CLIENT_INACTIVE]
    and neither recorded nor processed. *)
Theorem deactivated_tenant_is_not_served
    (E : Env) (verify_token : string) (data : json) (c : Client.t)
    (w : World) :
  fst (get_client_by_verify_token verify_token w) = Ok (Some c) ->
  client_row (Client.id c) w = Some c ->
  webhook_receive E verify_token data
                  (snd (deactivate_client E (Client.id c) w))
  = (mkResponse (JStr "CLIENT_INACTIVE") 200,
     snd (deactivate_client E (Client.id c) w)).
Proof.
  intros Htok Hrow.
  apply (webhook_receive_inactive E verify_token data
           (Client.set_active false c)); [|reflexivity].
  assert (Hw : clients (snd (deactivate_client E (Client.id c) w))
               = store_client (Client.set_active false c) (clients w)).
  { unfold deactivate_client, bind, ret.
    now rewrite (set_active_run E (Client.id c) false c w Hrow). }
  unfold get_client_by_verify_token in *. cbn [fst] in *.
  inversion Htok as [Hfind]. rewrite Hw. f_equal.
  exact (find_token_store_client verify_token c (Client.set_active false c)
           (clients w) Hfind Hrow eq_refl eq_refl).
Qed.

Lemma deactivated_tenant_is_not_served_witness :
  fst (webhook_receive (sample_env api_ok today_noon) "vt-acme"
         (delivery [messaging_entry [dm_event "u7" "oi"]])
         (snd (deactivate_client (sample_env api_ok today_noon) 1
                 (world_of [acme 0 (Some today_noon)] []))))
  = mkResponse (JStr "CLIENT_INACTIVE") 200.
Proof.
  exact (f_equal fst
           (deactivated_tenant_is_not_served
              (sample_env api_ok today_noon) "vt-acme"
              (delivery [messaging_entry [dm_event "u7" "oi"]])
              (acme 0 (Some today_noon))
              (world_of [acme 0 (Some today_noon)] []) eq_refl eq_refl)).
Defined.

Lemma resolve_unique_witness :
  fst (get_client_by_verify_token "vt-bistro"
         (world_of [acme 0 (Some today_noon); bistro 0 (Some today_noon)] []))
  = Ok (Some (bistro 0 (Some today_noon))).
Proof.
  apply (resolve_unique
           (world_of [acme 0 (Some today_noon); bistro 0 (Some today_noon)] [])
           "vt-bistro" (bistro 0 (Some today_noon))).
  - simpl. repeat constructor; simpl; intuition discriminate.
  - simpl. right. left. reflexivity.
  - reflexivity.
Defined.


(** *** Credential keys and the send route *)

Lemma validate_api_key_run
    (E : Env) (key : string) (a : ApiKey.t) (w : World) :
  find (fun a => String.eqb (ApiKey.key a) key && ApiKey.active a)
       (api_keys w) = Some a ->
  validate_api_key E key w
  = (Ok (client_row (ApiKey.client_id a) w),
     mkWorld (clients w) (messages w) (webhooks w)
       (store_api_key
          (ApiKey.mk (ApiKey.id a) (ApiKey.client_id a) (ApiKey.key a)
                     (ApiKey.name a) (ApiKey.active a)
                     (Some (clock E (ticks w)))) (api_keys w))
       (calls w) (S (ticks w))).
Proof.
  intro Hkey. unfold validate_api_key. rewrite Hkey.
  unfold bind, utcnow, commit_api_key, get_client. reflexivity.
Qed.

(** A protected route is not entered, and the world is left as it was,
    when the [X-API-Key] header is missing or empty (401,
    [API Key required]) and when no active key of the table is the header
    (401, [Invalid API Key]): a key that was deactivated authenticates no
    more than one that never existed. *)
Theorem require_api_key_rejects
    (E : Env) (f : Client.t -> World -> Response * World) (w : World) :
  require_api_key E f None w
  = (mkResponse (error_body "API Key required") 401, w)
  /\ require_api_key E f (Some "") w
     = (mkResponse (error_body "API Key required") 401, w)
  /\ (forall key,
         (forall a, In a (api_keys w) ->
                    ApiKey.key a = key -> ApiKey.active a = false) ->
         require_api_key E f (Some key) w
         = (mkResponse (error_body
                          (if String.eqb key "" then "API Key required"
                           else "Invalid API Key")) 401, w)).
Proof.
  split; [reflexivity|]. split; [reflexivity|].
  intros key Hnone. unfold require_api_key.
  destruct (String.eqb key ""); [reflexivity|].
  unfold validate_api_key.
  destruct (find _ (api_keys w)) as [a|] eqn:Hfind; [|reflexivity].
  apply find_some in Hfind. destruct Hfind as [Hin Hk].
  apply andb_true_iff in Hk. destruct Hk as [Hk Hact].
  apply String.eqb_eq in Hk. rewrite (Hnone a Hin Hk) in Hact. discriminate.
Qed.

Lemma require_api_key_rejects_witness :
  send_message (sample_env api_ok today_noon)
    (JObj [("recipient_id", JStr "u7"); ("message", JStr "Olá!")])
    (Some "sk_acme")
    (world_of [acme 0 (Some today_noon)] [acme_key false])
  = (mkResponse (error_body "Invalid API Key") 401,
     world_of [acme 0 (Some today_noon)] [acme_key false]).
Proof.
  unfold send_message.
  match goal with
  | |- require_api_key _ ?f _ _ = _ =>
      apply (proj2 (proj2 (require_api_key_rejects
                             (sample_env api_ok today_noon) f
                             (world_of [acme 0 (Some today_noon)]
                                       [acme_key false])))
                   "sk_acme")
  end.
  intros a [<-|[]] _. reflexivity.
Defined.

(** The send route, entered with a valid key, answers 500 with the text of
    the error when the body lacks [recipient_id] or [message] (or is not a
    dict); nothing is sent to the Graph API and no message is stored. *)
Theorem send_route_needs_recipient_and_message
    (E : Env) (data : json) (key : string) (a : ApiKey.t) (c : Client.t)
    (e : exn) (w : World) :
  key <> "" ->
  find (fun a => String.eqb (ApiKey.key a) key && ApiKey.active a)
       (api_keys w) = Some a ->
  client_row (ApiKey.client_id a) w = Some c ->
  py_item data "recipient_id" = Raise e
  \/ (exists recipient_id, py_item data "recipient_id" = Ok recipient_id)
     /\ py_item data "message" = Raise e ->
  fst (send_message E data (Some key) w)
  = mkResponse (error_body (exn_text e)) 500
  /\ calls (snd (send_message E data (Some key) w)) = calls w
  /\ messages (snd (send_message E data (Some key) w)) = messages w.
Proof.
  intros Hne Hkey Hrow Hbad.
  unfold send_message, require_api_key.
  apply String.eqb_neq in Hne.
  rewrite Hne, (validate_api_key_run E key a w Hkey), Hrow.
  unfold send_message_try, bind, lift.
  destruct Hbad as [Hr|[[r Hr] Hm]].
  - rewrite Hr. repeat split.
  - rewrite Hr, Hm. repeat split.
Qed.

Lemma send_route_needs_recipient_and_message_witness :
  fst (send_message (sample_env api_ok today_noon)
         (JObj [("recipient_id", JStr "u7")]) (Some "sk_acme")
         (world_of [acme 0 (Some today_noon)] [acme_key true]))
  = mkResponse (error_body "'message'") 500
  /\ calls (snd (send_message (sample_env api_ok today_noon)
                   (JObj [("recipient_id", JStr "u7")]) (Some "sk_acme")
                   (world_of [acme 0 (Some today_noon)] [acme_key true])))
     = []
  /\ messages (snd (send_message (sample_env api_ok today_noon)
                      (JObj [("recipient_id", JStr "u7")]) (Some "sk_acme")
                      (world_of [acme 0 (Some today_noon)] [acme_key true])))
     = [].
Proof.
  assert (Hne : "sk_acme" <> "") by discriminate.
  apply (send_route_needs_recipient_and_message
           (sample_env api_ok today_noon)
           (JObj [("recipient_id", JStr "u7")]) "sk_acme" (acme_key true)
           (acme 0 (Some today_noon)) (KeyError "message")
           (world_of [acme 0 (Some today_noon)] [acme_key true])
           Hne eq_refl eq_refl).
  right. split; [exists (JStr "u7")|]; reflexivity.
Defined.

(** *** Hard delete, key generation, registration *)

Lemma find_filter_out (cid : Z) (l : list Client.t) :
  find (fun c => Client.id c =? cid)
       (filter (fun c => negb (Client.id c =? cid)) l) = None.
Proof.
  induction l as [|x l IH]; simpl; [reflexivity|].
  destruct (Client.id x =? cid) eqn:Hx; simpl; [exact IH|].
  now rewrite Hx.
Qed.

Lemma find_filter_other (cid other : Z) (l : list Client.t) :
  other <> cid ->
  find (fun c => Client.id c =? other)
       (filter (fun c => negb (Client.id c =? cid)) l)
  = find (fun c => Client.id c =? other) l.
Proof.
  intro Hne. induction l as [|x l IH]; simpl; [reflexivity|].
  destruct (Client.id x =? cid) eqn:Hx; simpl.
  - apply Z.eqb_eq in Hx.
    assert (H : (Client.id x =? other) = false) by (apply Z.eqb_neq; lia).
    now rewrite H.
  - now rewrite IH.
Qed.

(** The hard delete of a tenant of the directory returns [True] and leaves
    no trace of the tenant: its row is gone and what is left of the
    messages, the webhooks and the keys is exactly what belonged to other
    tenants, whose rows are untouched.  On an id that is not in the
    directory it returns [False] and changes nothing. *)
Theorem delete_client_cascades (cid : Z) (w : World) :
  (client_row cid w = None -> delete_client cid w = (Ok false, w))
  /\ (forall c,
         client_row cid w = Some c ->
         fst (delete_client cid w) = Ok true
         /\ client_row cid (snd (delete_client cid w)) = None
         /\ (forall m, In m (messages (snd (delete_client cid w)))
                       <-> In m (messages w) /\ Message.client_id m <> cid)
         /\ (forall h, In h (webhooks (snd (delete_client cid w)))
                       <-> In h (webhooks w) /\ Webhook.client_id h <> cid)
         /\ (forall a, In a (api_keys (snd (delete_client cid w)))
                       <-> In a (api_keys w) /\ ApiKey.client_id a <> cid)
         /\ (forall other,
                other <> cid ->
                client_row other (snd (delete_client cid w))
                = client_row other w)).
Proof.
  unfold client_row, delete_client, get_client, bind, ret. simpl. split.
  - intro Hrow. now rewrite Hrow.
  - intros c Hrow. rewrite Hrow. simpl.
    rewrite (find_client_id _ _ _ Hrow).
    split; [reflexivity|]. split; [apply find_filter_out|].
    split; [intro m; now rewrite filter_In, negb_true_iff, Z.eqb_neq|].
    split; [intro h; now rewrite filter_In, negb_true_iff, Z.eqb_neq|].
    split; [intro a; now rewrite filter_In, negb_true_iff, Z.eqb_neq|].
    intros other Hne. now apply find_filter_other.
Qed.

Lemma delete_client_cascades_witness :
  fst (delete_client 1
         (mkWorld [acme 1 (Some today_noon); bistro 0 (Some today_noon)]
            [Message.mk 1 1 (JStr "u7") "dm" (JStr "Olá!") None true None;
             Message.mk 2 2 (JStr "u8") "dm" (JStr "Olá!") None true None]
            [] [acme_key true] [] 0)) = Ok true
  /\ client_row 1
       (snd (delete_client 1
          (mkWorld [acme 1 (Some today_noon); bistro 0 (Some today_noon)]
             [Message.mk 1 1 (JStr "u7") "dm" (JStr "Olá!") None true None;
              Message.mk 2 2 (JStr "u8") "dm" (JStr "Olá!") None true None]
             [] [acme_key true] [] 0))) = None.
Proof.
  destruct (proj2 (delete_client_cascades 1
              (mkWorld [acme 1 (Some today_noon); bistro 0 (Some today_noon)]
                 [Message.mk 1 1 (JStr "u7") "dm" (JStr "Olá!") None true None;
                  Message.mk 2 2 (JStr "u8") "dm" (JStr "Olá!") None true None]
                 [] [acme_key true] [] 0))
              (acme 1 (Some today_noon)) eq_refl) as [Hr [Hrow _]].
  split; assumption.
Defined.

Lemma find_app_fresh {A : Type} (p : A -> bool) (l : list A) (x : A) :
  (forall y, In y l -> p y = false) ->
  p x = true ->
  find p (l ++ [x]) = Some x.
Proof.
  intros Hl Hx. induction l as [|y l IH]; simpl.
  - now rewrite Hx.
  - rewrite (Hl y (or_introl eq_refl)). apply IH.
    intros z Hz. apply Hl. now right.
Qed.

(** A key that [generate_api_key] issues for a tenant of the directory
    authenticates that tenant: the key is ["sk_"] followed by the random
    token, it is stored active, and [validate_api_key] on it returns the
    tenant.  When the key is already in the table the insert fails and the
    table is left as it was. *)
Theorem generated_key_authenticates_its_tenant
    (E : Env) (token : string) (cid : Z) (name : string) (w : World) :
  (existsb (fun a => String.eqb (ApiKey.key a) ("sk_" ++ token)) (api_keys w)
   = true ->
   generate_api_key token cid name w = (Raise DatabaseError, w))
  /\ (forall c,
         existsb (fun a => String.eqb (ApiKey.key a) ("sk_" ++ token))
                 (api_keys w) = false ->
         client_row cid w = Some c ->
         exists a,
           fst (generate_api_key token cid name w) = Ok a
           /\ ApiKey.key a = "sk_" ++ token
           /\ ApiKey.client_id a = cid
           /\ ApiKey.active a = true
           /\ api_keys (snd (generate_api_key token cid name w))
              = (api_keys w ++ [a])%list
           /\ fst (validate_api_key E ("sk_" ++ token)
                     (snd (generate_api_key token cid name w)))
              = Ok (Some c)).
Proof.
  unfold generate_api_key, try_except, raise. split.
  - intro Hdup. now rewrite Hdup.
  - intros c Hnew Hrow. rewrite Hnew. cbn [fst snd].
    eexists. repeat split.
    assert (Hfind :
      find (fun a => String.eqb (ApiKey.key a) ("sk_" ++ token)
                     && ApiKey.active a)
           (api_keys w
              ++ [ApiKey.mk (next_id (map ApiKey.id (api_keys w))) cid
                            ("sk_" ++ token) name true None])
      = Some (ApiKey.mk (next_id (map ApiKey.id (api_keys w))) cid
                        ("sk_" ++ token) name true None)).
    { apply find_app_fresh.
      - intros y Hy. apply andb_false_iff. left.
        destruct (String.eqb (ApiKey.key y) ("sk_" ++ token)) eqn:Hk;
          [|reflexivity].
        assert (Hex : existsb (fun a => String.eqb (ApiKey.key a)
                                          ("sk_" ++ token)) (api_keys w)
                      = true)
          by (apply existsb_exists; exists y; split; assumption).
        congruence.
      - cbn [ApiKey.key ApiKey.active]. now rewrite String.eqb_refl. }
    rewrite (validate_api_key_run E _ _
               (mkWorld (clients w) (messages w) (webhooks w)
                  (api_keys w
                     ++ [ApiKey.mk (next_id (map ApiKey.id (api_keys w))) cid
                                   ("sk_" ++ token) name true None])
                  (calls w) (ticks w)) Hfind).
    cbn [fst ApiKey.client_id]. f_equal. exact Hrow.
Qed.

Lemma generated_key_authenticates_its_tenant_witness :
  fst (validate_api_key (sample_env api_ok today_noon) "sk_x9"
         (snd (generate_api_key "x9" 2 "Initial Key"
                 (world_of [acme 0 (Some today_noon);
                            bistro 0 (Some today_noon)] [acme_key true]))))
  = Ok (Some (bistro 0 (Some today_noon))).
Proof.
  destruct (proj2 (generated_key_authenticates_its_tenant
                     (sample_env api_ok today_noon) "x9" 2 "Initial Key"
                     (world_of [acme 0 (Some today_noon);
                                bistro 0 (Some today_noon)] [acme_key true]))
                  (bistro 0 (Some today_noon)) eq_refl eq_refl)
    as [a [_ [_ [_ [_ [_ H]]]]]].
  exact H.
Defined.

Lemma next_id_above (ids : list Z) (x : Z) : In x ids -> x < next_id ids.
Proof.
  unfold next_id. induction ids as [|y ids IH]; cbn [fold_right In];
    [contradiction|].
  intros [->|Hin]; [lia|]. specialize (IH Hin). lia.
Qed.

Lemma find_app_found {A : Type} (p : A -> bool) (l l' : list A) (x : A) :
  find p l = Some x -> find p (l ++ l') = Some x.
Proof.
  induction l as [|y l IH]; simpl; [discriminate|].
  destruct (p y); [trivial | exact IH].
Qed.

(** [create_client] refuses an email that is in the directory, raising
    [ValueError] and leaving the world as it was.  Otherwise it adds one
    tenant, active, with auto-reply on, the counter at 0 and the token
    generated for it; the tenant is found from then on by its id and by its
    email, and by its token when no tenant held that token before; the
    tenants that were there are found as before. *)
Theorem create_client_registers
    (E : Env) (verify_token name email access_token instagram_account_id
       page_id : string)
    (keywords : list string) (custom_responses : list (string * string))
    (daily_limit : Z) (w : World) :
  (fst (get_client_by_email email w) <> Ok None ->
   create_client E verify_token name email access_token instagram_account_id
                 page_id keywords custom_responses daily_limit w
   = (ValueError ("Cliente com email " ++ email ++ " já existe!"), w))
  /\ (fst (get_client_by_email email w) = Ok None ->
      exists client,
        fst (create_client E verify_token name email access_token
               instagram_account_id page_id keywords custom_responses
               daily_limit w) = Created client
        /\ clients (snd (create_client E verify_token name email access_token
                           instagram_account_id page_id keywords
                           custom_responses daily_limit w))
           = (clients w ++ [client])%list
        /\ Client.verify_token client = verify_token
        /\ Client.active client = true
        /\ Client.auto_reply_enabled client = true
        /\ Client.messages_sent_today client = 0
        /\ Client.daily_message_limit client = daily_limit
        /\ client_row (Client.id client)
             (snd (create_client E verify_token name email access_token
                     instagram_account_id page_id keywords custom_responses
                     daily_limit w)) = Some client
        /\ fst (get_client_by_email email
                  (snd (create_client E verify_token name email access_token
                          instagram_account_id page_id keywords
                          custom_responses daily_limit w)))
           = Ok (Some client)
        /\ ((forall c, In c (clients w) ->
                       Client.verify_token c <> verify_token) ->
            fst (get_client_by_verify_token verify_token
                   (snd (create_client E verify_token name email access_token
                           instagram_account_id page_id keywords
                           custom_responses daily_limit w)))
            = Ok (Some client))
        /\ (forall other c,
               client_row other w = Some c ->
               client_row other
                 (snd (create_client E verify_token name email access_token
                         instagram_account_id page_id keywords
                         custom_responses daily_limit w)) = Some c)).
Proof.
  unfold create_client, get_client_by_email, get_client_by_verify_token,
    client_row.
  cbn [fst].
  destruct (find (fun c => String.eqb (Client.email c) email) (clients w))
    as [existing|] eqn:Hemail.
  - split; [reflexivity|]. intro H. discriminate.
  - split; [intro H; now contradiction H|]. intros _.
    eexists. cbn [fst snd clients].
    repeat split.
    + apply find_app_fresh.
      * intros y Hy. apply Z.eqb_neq. cbn [Client.id].
        pose proof (next_id_above (map Client.id (clients w)) (Client.id y)
                      (in_map Client.id _ _ Hy)). lia.
      * apply Z.eqb_refl.
    + f_equal. apply find_app_fresh.
      * intros y Hy. exact (find_none _ _ Hemail y Hy).
      * cbn [Client.email]. apply String.eqb_refl.
    + intro Hfresh. f_equal. apply find_app_fresh.
      * intros y Hy. apply String.eqb_neq. now apply Hfresh.
      * cbn [Client.verify_token]. apply String.eqb_refl.
    + intros other c Hc. now apply find_app_found.
Qed.

Lemma create_client_registers_witness :
  exists client,
    fst (create_client (sample_env api_ok today_noon) "vt-cafe" "Cafe"
           "oi@cafe.example" "token-cafe" "17840000000000003" "1003"
           ["menu"] [] 100 (world_of [acme 0 (Some today_noon)] []))
    = Created client
    /\ Client.id client = 2
    /\ fst (get_client_by_verify_token "vt-cafe"
              (snd (create_client (sample_env api_ok today_noon) "vt-cafe"
                      "Cafe" "oi@cafe.example" "token-cafe"
                      "17840000000000003" "1003" ["menu"] [] 100
                      (world_of [acme 0 (Some today_noon)] []))))
       = Ok (Some client).
Proof.
  destruct (proj2 (create_client_registers
                     (sample_env api_ok today_noon) "vt-cafe" "Cafe"
                     "oi@cafe.example" "token-cafe" "17840000000000003"
                     "1003" ["menu"] [] 100
                     (world_of [acme 0 (Some today_noon)] [])) eq_refl)
    as [client [Hc [_ [_ [_ [_ [_ [_ [_ [_ [Htok _]]]]]]]]]]].
  exists client. split; [exact Hc|]. split.
  - simpl in Hc. inversion Hc. reflexivity.
  - apply Htok. intros c [<-|[]]. discriminate.
Defined.

(** *** The webhook log *)

Lemma same_webhooks_refl (w : World) : same_webhooks w w.
Proof. reflexivity. Qed.

Lemma same_webhooks_trans (w1 w2 w3 : World) :
  same_webhooks w1 w2 -> same_webhooks w2 w3 -> same_webhooks w1 w3.
Proof. unfold same_webhooks. congruence. Qed.

Lemma webhooks_check_rate_limit (E : Env) (cid : Z) :
  keeps same_webhooks (check_rate_limit E cid).
Proof.
  intro w. destruct (check_rate_limit_frame E cid w) as [b [_ [_ [H _]]]].
  exact H.
Qed.

Lemma webhooks_log_message (cid : Z) (recipient_id : json)
    (message_type : string) (message_text : json) (media_url : option string)
    (sent : bool) (error : option string) :
  keeps same_webhooks
        (log_message cid recipient_id message_type message_text media_url
                     sent error).
Proof.
  intro w. unfold same_webhooks, log_message, try_except, bind, add_message,
    raise, ret.
  cbn [Message.recipient_id Message.message_text].
  destruct (storable recipient_id && storable_text message_text);
    [|reflexivity].
  destruct sent; [|reflexivity].
  unfold increment_message_count, get_client, commit_client, bind, ret.
  cbn [clients]. now destruct (find _ (clients w)).
Qed.

Lemma webhooks_make_request (E : Env) (call : ApiCall) :
  keeps same_webhooks (InstagramAPI._make_request E call).
Proof. intro w. reflexivity. Qed.

Lemma webhooks_process_entry (E : Env) (client : Client.t) (entry : json) :
  keeps same_webhooks (process_entry E entry client).
Proof.
  unfold process_entry, process_messaging_event, process_change_event,
    process_message, process_comment, process_mention,
    InstagramAPI.send_message, InstagramAPI.reply_to_comment.
  keep_with same_webhooks_refl same_webhooks_trans
            ltac:(first [ apply webhooks_check_rate_limit
                        | apply webhooks_log_message
                        | apply webhooks_make_request ]).
Qed.


Lemma next_id_fresh (ids : list Z) : ~ In (next_id ids) ids.
Proof.
  intro Hin. pose proof (next_id_above ids _ Hin). lia.
Qed.

Lemma store_webhook_last (h x : Webhook.t) (l : list Webhook.t) :
  (forall y, In y l -> Webhook.id y <> Webhook.id h) ->
  Webhook.id x = Webhook.id h ->
  store_webhook h (l ++ [x]) = (l ++ [h])%list.
Proof.
  intros Hl Hx. induction l as [|y l IH]; simpl.
  - rewrite Hx, Z.eqb_refl. reflexivity.
  - assert (Hy : (Webhook.id y =? Webhook.id h) = false)
      by (apply Z.eqb_neq, Hl; now left).
    rewrite Hy. f_equal. apply IH. intros z Hz. apply Hl. now right.
Qed.

Lemma webhooks_process_entries (E : Env) (client : Client.t) (data : json) :
  keeps same_webhooks (process_entries E client data).
Proof.
  unfold process_entries.
  keep_with same_webhooks_refl same_webhooks_trans
            ltac:(apply webhooks_process_entry).
Qed.

(** The route, past its two gates, is the logging, the loop and the
    marking. *)
Lemma webhook_receive_try_run
    (E : Env) (verify_token : string) (data : json) (client : Client.t)
    (w : World) :
  fst (get_client_by_verify_token verify_token w) = Ok (Some client) ->
  Client.active client = true ->
  webhook_receive_try E verify_token data w
  = match process_entries E client data
            (snd (log_webhook "instagram_event" data (Client.id client) w))
    with
    | (Ok _, w2) =>
        (mark_webhook_processed E
           (Webhook.id (logged_webhook client data w)) None ;;
         ret (mkResponse (JStr "EVENT_RECEIVED") 200)) w2
    | (Raise e, w2) => (Raise e, w2)
    end.
Proof.
  intros Hclient Hactive.
  unfold get_client_by_verify_token in Hclient. simpl in Hclient.
  inversion Hclient as [Hfind].
  unfold webhook_receive_try, bind at 1, get_client_by_verify_token.
  rewrite Hfind, Hactive. cbn [negb].
  unfold bind at 1, log_webhook. cbn [snd].
  unfold process_entries, bind at 1, bind at 2, lift.
  destruct (py_in "entry" data) as [b|e]; [|reflexivity].
  unfold bind at 1. reflexivity.
Qed.

(** The marking finds the row the delivery was logged as, whatever the
    ids of the rows before it. *)
Lemma mark_logged_webhook
    (E : Env) (client : Client.t) (data : json) (w w2 : World) :
  webhooks w2 = (webhooks w ++ [logged_webhook client data w])%list ->
  mark_webhook_processed E (Webhook.id (logged_webhook client data w)) None w2
  = (Ok tt,
     mkWorld (clients w2) (messages w2)
             (webhooks w
                ++ [marked_at (clock E (ticks w2))
                              (logged_webhook client data w)])
             (api_keys w2) (calls w2) (S (ticks w2))).
Proof.
  intro Hw2.
  assert (Hfresh : forall y, In y (webhooks w) ->
                     Webhook.id y <> Webhook.id (logged_webhook client data w)).
  { intros y Hy Heq. apply (next_id_fresh (map Webhook.id (webhooks w))).
    cbn [logged_webhook Webhook.id] in Heq. rewrite <- Heq.
    now apply in_map. }
  unfold mark_webhook_processed.
  assert (Hfound :
    find (fun h => Webhook.id h =? Webhook.id (logged_webhook client data w))
         (webhooks w2) = Some (logged_webhook client data w)).
  { rewrite Hw2. apply find_app_fresh.
    - intros y Hy. apply Z.eqb_neq. now apply Hfresh.
    - apply Z.eqb_refl. }
  rewrite Hfound. unfold bind, utcnow, commit_webhook.
  cbn [fst snd webhooks clients messages api_keys calls ticks].
  rewrite Hw2.
  pose proof (store_webhook_last
                (marked_at (clock E (ticks w2)) (logged_webhook client data w))
                (logged_webhook client data w) (webhooks w) Hfresh eq_refl)
    as Hstore.
  unfold marked_at in Hstore |- *. rewrite Hstore. reflexivity.
Qed.

(** A delivery to an active tenant, from the world its loop ends in: the
    answer, the final world and the row the delivery left in the log. *)
Lemma webhook_receive_logged
    (E : Env) (verify_token : string) (data : json) (client : Client.t)
    (w : World) :
  fst (get_client_by_verify_token verify_token w) = Ok (Some client) ->
  Client.active client = true ->
  match process_entries E client data
          (snd (log_webhook "instagram_event" data (Client.id client) w))
  with
  | (Ok _, w2) =>
      webhook_receive E verify_token data w
      = (mkResponse (JStr "EVENT_RECEIVED") 200,
         snd (mark_webhook_processed E
                (Webhook.id (logged_webhook client data w)) None w2))
      /\ webhooks (snd (mark_webhook_processed E
                          (Webhook.id (logged_webhook client data w)) None
                          w2))
         = (webhooks w
              ++ [marked_at (clock E (ticks w2))
                            (logged_webhook client data w)])%list
  | (Raise e, w2) =>
      webhook_receive E verify_token data w
      = (mkResponse (JStr "ERROR") 500, w2)
      /\ webhooks w2 = (webhooks w ++ [logged_webhook client data w])%list
  end.
Proof.
  intros Hclient Hactive.
  unfold webhook_receive.
  rewrite (webhook_receive_try_run E verify_token data client w
             Hclient Hactive).
  pose proof (webhooks_process_entries E client data
                (snd (log_webhook "instagram_event" data (Client.id client)
                                  w))) as Hkeep.
  unfold same_webhooks in Hkeep.
  destruct (process_entries E client data _) as [[u|e] w2];
    cbn [snd] in Hkeep;
    assert (Hw2 : webhooks w2
                  = (webhooks w ++ [logged_webhook client data w])%list)
      by (rewrite Hkeep; reflexivity).
  - unfold bind, ret.
    rewrite (mark_logged_webhook E client data w w2 Hw2). split; reflexivity.
  - split; [reflexivity | exact Hw2].
Qed.

Lemma process_entries_array
    (E : Env) (client : Client.t) (data : json) (entries : list json)
    (w : World) :
  py_item data "entry" = Ok (JArr entries) ->
  process_entries E client data w
  = for_each entries (fun entry => process_entry E entry client) w.
Proof.
  intro Hentry.
  destruct data as [| | | | |kv]; simpl in Hentry; try discriminate.
  destruct (assoc "entry" kv) as [v|] eqn:Hkv; [|discriminate].
  inversion Hentry; subst v.
  unfold process_entries, bind, lift, py_in, py_item, py_iter.
  rewrite Hkv. now destruct (for_each entries _ w) as [[u|e] w2].
Qed.

(** C1 (as amended).  For a delivery to an active tenant whose body holds an
    [entry] array, the entries are processed in order inside the single
    [try] of the route.  When no entry raises, every entry is processed, the
    webhook the delivery was logged as is marked processed and the route
    answers [EVENT_RECEIVED] with status 200.  When processing an entry
    raises, the entries after it are not processed, the webhook stays as it
    was logged, unprocessed, and the route answers [ERROR] with status
    500. *)
Theorem webhook_entries_until_first_failure
    (E : Env) (verify_token : string) (data : json) (entries : list json)
    (client : Client.t) (w : World) :
  fst (get_client_by_verify_token verify_token w) = Ok (Some client) ->
  Client.active client = true ->
  py_item data "entry" = Ok (JArr entries) ->
  let w1 := snd (log_webhook "instagram_event" data (Client.id client) w) in
  let logged := logged_webhook client data w in
  (forall w2,
      for_each entries (fun entry => process_entry E entry client) w1
      = (Ok tt, w2) ->
      webhook_receive E verify_token data w
      = (mkResponse (JStr "EVENT_RECEIVED") 200,
         snd (mark_webhook_processed E (Webhook.id logged) None w2))
      /\ webhooks (snd (mark_webhook_processed E (Webhook.id logged) None w2))
         = (webhooks w ++ [marked_at (clock E (ticks w2)) logged])%list)
  /\ (forall done entry rest wa wb ex,
         entries = (done ++ entry :: rest)%list ->
         for_each done (fun entry => process_entry E entry client) w1
         = (Ok tt, wa) ->
         process_entry E entry client wa = (Raise ex, wb) ->
         webhook_receive E verify_token data w
         = (mkResponse (JStr "ERROR") 500, wb)
         /\ webhooks wb = (webhooks w ++ [logged])%list).
Proof.
  intros Hclient Hactive Hentry w1 logged.
  pose proof (webhook_receive_logged E verify_token data client w
                Hclient Hactive) as Hrun.
  rewrite (process_entries_array E client data entries _ Hentry) in Hrun.
  fold w1 in Hrun. split.
  - intros w2 Hall. rewrite Hall in Hrun. exact Hrun.
  - intros done entry rest wa wb ex Hsplit Hdone Hraise.
    rewrite Hsplit in Hrun.
    rewrite (for_each_stops done rest entry _ w1 wa wb ex Hdone Hraise)
      in Hrun.
    exact Hrun.
Qed.

Lemma webhook_entries_until_first_failure_witness :
  fst (webhook_receive (sample_env api_ok today_noon) "vt-acme"
         (delivery [messaging_entry [dm_event "u7" "oi"];
                    changes_entry [comment_change "c9" "qual o preço?" "ana"]])
         (world_of [acme 0 (Some today_noon)] []))
  = mkResponse (JStr "EVENT_RECEIVED") 200
  /\ fst (webhook_receive (sample_env api_ok today_noon) "vt-acme"
            (delivery [changes_entry [broken_change];
                       messaging_entry [dm_event "u7" "oi"]])
            (world_of [acme 0 (Some today_noon)] []))
     = mkResponse (JStr "ERROR") 500.
Proof.
  split.
  - exact (f_equal fst
             (proj1 (proj1 (webhook_entries_until_first_failure
                              (sample_env api_ok today_noon) "vt-acme"
                              (delivery
                                 [messaging_entry [dm_event "u7" "oi"];
                                  changes_entry
                                    [comment_change "c9" "qual o preço?"
                                                    "ana"]])
                              [messaging_entry [dm_event "u7" "oi"];
                               changes_entry
                                 [comment_change "c9" "qual o preço?" "ana"]]
                              (acme 0 (Some today_noon))
                              (world_of [acme 0 (Some today_noon)] [])
                              eq_refl eq_refl eq_refl)
                           (snd (for_each
                                   [messaging_entry [dm_event "u7" "oi"];
                                    changes_entry
                                      [comment_change "c9" "qual o preço?"
                                                      "ana"]]
                                   (fun entry =>
                                      process_entry
                                        (sample_env api_ok today_noon) entry
                                        (acme 0 (Some today_noon)))
                                   (snd (log_webhook "instagram_event"
                                           (delivery
                                              [messaging_entry
                                                 [dm_event "u7" "oi"];
                                               changes_entry
                                                 [comment_change
                                                    "c9" "qual o preço?"
                                                    "ana"]])
                                           1
                                           (world_of
                                              [acme 0 (Some today_noon)]
                                              [])))))
                           ltac:(vm_compute; reflexivity)))).
  - exact (f_equal fst
             (proj1 (proj2 (webhook_entries_until_first_failure
                              (sample_env api_ok today_noon) "vt-acme"
                              (delivery [changes_entry [broken_change];
                                         messaging_entry [dm_event "u7" "oi"]])
                              [changes_entry [broken_change];
                               messaging_entry [dm_event "u7" "oi"]]
                              (acme 0 (Some today_noon))
                              (world_of [acme 0 (Some today_noon)] [])
                              eq_refl eq_refl eq_refl)
                           [] (changes_entry [broken_change])
                           [messaging_entry [dm_event "u7" "oi"]]
                           (snd (log_webhook "instagram_event"
                                   (delivery
                                      [changes_entry [broken_change];
                                       messaging_entry [dm_event "u7" "oi"]])
                                   1
                                   (world_of [acme 0 (Some today_noon)] [])))
                           (snd (process_entry
                                   (sample_env api_ok today_noon)
                                   (changes_entry [broken_change])
                                   (acme 0 (Some today_noon))
                                   (snd (log_webhook "instagram_event"
                                           (delivery
                                              [changes_entry [broken_change];
                                               messaging_entry
                                                 [dm_event "u7" "oi"]])
                                           1
                                           (world_of
                                              [acme 0 (Some today_noon)]
                                              [])))))
                           AttributeError eq_refl eq_refl eq_refl))).
Defined.

(** C1, the claim as it stands, fails: in a delivery of two entries whose
    first holds a [comments] change without its [value], the first entry
    raises, the second (a direct message that alone gets its reply) is not
    processed, and the route answers with status 500. *)
Lemma failing_entry_aborts_delivery :
  let E := sample_env api_ok today_noon in
  let w := world_of [acme 0 (Some today_noon)] [] in
  let sibling := messaging_entry [dm_event "u7" "oi"] in
  let both := webhook_receive E "vt-acme"
                (delivery [changes_entry [broken_change]; sibling]) w in
  let alone := webhook_receive E "vt-acme" (delivery [sibling]) w in
  fst (process_entry E (changes_entry [broken_change])
         (acme 0 (Some today_noon)) w) = Raise AttributeError
  /\ fst alone = mkResponse (JStr "EVENT_RECEIVED") 200
  /\ calls (snd alone)
     = [SendMessage "token-acme" "17840000000000001" (JStr "u7")
          (JStr "Olá! 👋 Como posso ajudar você hoje?")]
  /\ fst both = mkResponse (JStr "ERROR") 500
  /\ status (fst both) <> 200
  /\ calls (snd both) = []
  /\ messages (snd both) = [].
Proof.
  repeat split; try reflexivity. discriminate.
Qed.


(** Every delivery to an active tenant whose body parsed as JSON is logged
    exactly once, whatever the ids of the webhooks already in the log: the
    route adds one webhook to the log, numbered past every id in it, holding
    the tenant's id and the payload as received, and touches no other; the
    webhook is marked processed exactly when the route answers
    [EVENT_RECEIVED], and stays unprocessed, without an error text, when the
    route answers [ERROR]. *)
Theorem delivery_is_logged_once
    (E : Env) (verify_token : string) (data : json) (client : Client.t)
    (w : World) :
  fst (get_client_by_verify_token verify_token w) = Ok (Some client) ->
  Client.active client = true ->
  exists row,
    webhooks (snd (webhook_receive E verify_token data w))
    = (webhooks w ++ [row])%list
    /\ Webhook.id row = next_id (map Webhook.id (webhooks w))
    /\ (forall h, In h (webhooks w) -> Webhook.id h < Webhook.id row)
    /\ Webhook.client_id row = Client.id client
    /\ Webhook.payload row = data
    /\ Webhook.event_type row = "instagram_event"
    /\ Webhook.error row = None
    /\ (Webhook.processed row = true
        <-> fst (webhook_receive E verify_token data w)
            = mkResponse (JStr "EVENT_RECEIVED") 200)
    /\ (Webhook.processed row = false
        <-> fst (webhook_receive E verify_token data w)
            = mkResponse (JStr "ERROR") 500).
Proof.
  intros Hclient Hactive.
  assert (Habove : forall h, In h (webhooks w) ->
                     Webhook.id h < next_id (map Webhook.id (webhooks w))).
  { intros h Hh. apply next_id_above. now apply in_map. }
  pose proof (webhook_receive_logged E verify_token data client w
                Hclient Hactive) as Hrun.
  destruct (process_entries E client data _) as [[u|e] w2];
    destruct Hrun as [Hresp Hlog].
  - exists (marked_at (clock E (ticks w2)) (logged_webhook client data w)).
    rewrite Hresp. cbn [fst snd]. split; [exact Hlog|].
    split; [reflexivity|]. split; [exact Habove|].
    do 4 (split; [reflexivity|]).
    split; split; intro H; try reflexivity; discriminate.
  - exists (logged_webhook client data w).
    rewrite Hresp. cbn [fst snd]. split; [exact Hlog|].
    split; [reflexivity|]. split; [exact Habove|].
    do 4 (split; [reflexivity|]).
    split; split; intro H; try reflexivity; discriminate.
Qed.

Lemma delivery_is_logged_once_witness :
  exists row,
    webhooks (snd (webhook_receive (sample_env api_ok today_noon) "vt-acme"
                     (delivery [messaging_entry [dm_event "u7" "oi"]])
                     (mkWorld [acme 0 (Some today_noon)] []
                              [Webhook.mk 2 2 "instagram_event" JNull true
                                          None None]
                              [] [] 0)))
    = [Webhook.mk 2 2 "instagram_event" JNull true None None; row]
    /\ Webhook.id row = 3
    /\ Webhook.client_id row = 1
    /\ Webhook.processed row = true.
Proof.
  destruct (delivery_is_logged_once
              (sample_env api_ok today_noon) "vt-acme"
              (delivery [messaging_entry [dm_event "u7" "oi"]])
              (acme 0 (Some today_noon))
              (mkWorld [acme 0 (Some today_noon)] []
                       [Webhook.mk 2 2 "instagram_event" JNull true
                                   None None]
                       [] [] 0)
              eq_refl eq_refl)
    as [row [Hw [Hid [_ [Hc [_ [_ [_ [Ht _]]]]]]]]].
  exists row. split; [exact Hw|]. split; [exact Hid|]. split; [exact Hc|].
  apply Ht. reflexivity.
Defined.

Lemma store_client_over (c1 c2 : Client.t) (l : list Client.t) :
  Client.id c1 = Client.id c2 ->
  store_client c2 (store_client c1 l) = store_client c2 l.
Proof.
  intro Hid. induction l as [|x l IH]; simpl; [reflexivity|].
  rewrite Hid. destruct (Client.id x =? Client.id c2) eqn:Hx; simpl.
  - now rewrite Hid, Z.eqb_refl.
  - now rewrite Hx, IH.
Qed.

Lemma store_client_same (c : Client.t) (l : list Client.t) :
  find (fun x => Client.id x =? Client.id c) l = Some c ->
  store_client c l = l.
Proof.
  intro Hf. induction l as [|x l IH]; simpl in *; [reflexivity|].
  destruct (Client.id x =? Client.id c) eqn:Hx.
  - now inversion Hf.
  - f_equal. auto.
Qed.

(** The soft delete can be undone: for an active tenant of the directory,
    [deactivate_client] followed by [activate_client] returns [True] and
    gives back the directory as it was, the tenant's row included, in every
    column but the [updated_at] stamp, which each of the two calls rewrites
    with a reading of the clock; the messages, the webhooks, the keys and the
    requests sent are left as they were. *)
Theorem activate_client_undoes_deactivate_client
    (E : Env) (cid : Z) (c : Client.t) (w : World) :
  client_row cid w = Some c ->
  Client.active c = true ->
  fst (activate_client E cid (snd (deactivate_client E cid w))) = Ok true
  /\ clients (snd (activate_client E cid (snd (deactivate_client E cid w))))
     = clients w
  /\ messages (snd (activate_client E cid (snd (deactivate_client E cid w))))
     = messages w
  /\ webhooks (snd (activate_client E cid (snd (deactivate_client E cid w))))
     = webhooks w
  /\ api_keys (snd (activate_client E cid (snd (deactivate_client E cid w))))
     = api_keys w
  /\ calls (snd (activate_client E cid (snd (deactivate_client E cid w))))
     = calls w
  /\ ticks (snd (activate_client E cid (snd (deactivate_client E cid w))))
     = S (S (ticks w)).
Proof.
  intros Hrow Hactive. pose proof (find_client_id _ _ _ Hrow) as Hid.
  assert (Hc : Client.set_active true (Client.set_active false c) = c)
    by (destruct c; simpl in *; now subst).
  unfold activate_client, deactivate_client, bind, ret.
  rewrite (set_active_run E cid false c w Hrow). cbn [fst snd].
  assert (Hrow' : client_row cid
                    (mkWorld (store_client (Client.set_active false c)
                                           (clients w))
                             (messages w) (webhooks w) (api_keys w)
                             (calls w) (S (ticks w)))
                  = Some (Client.set_active false c)).
  { unfold client_row. cbn [clients].
    eapply find_store_client; [exact Hrow | exact Hid]. }
  rewrite (set_active_run E cid true _ _ Hrow').
  cbn [fst snd clients messages webhooks api_keys calls ticks].
  split; [reflexivity|]. split; [|repeat split].
  rewrite Hc, store_client_over by reflexivity.
  apply store_client_same. rewrite Hid. exact Hrow.
Qed.

Lemma activate_client_undoes_deactivate_client_witness :
  fst (activate_client (sample_env api_ok today_noon) 1
         (snd (deactivate_client (sample_env api_ok today_noon) 1
                 (world_of [acme 0 (Some today_noon);
                            bistro 0 (Some today_noon)]
                           [acme_key true]))))
  = Ok true
  /\ clients
       (snd (activate_client (sample_env api_ok today_noon) 1
               (snd (deactivate_client (sample_env api_ok today_noon) 1
                       (world_of [acme 0 (Some today_noon);
                                  bistro 0 (Some today_noon)]
                                 [acme_key true])))))
     = [acme 0 (Some today_noon); bistro 0 (Some today_noon)].
Proof.
  exact (let H := activate_client_undoes_deactivate_client
                    (sample_env api_ok today_noon) 1
                    (acme 0 (Some today_noon))
                    (world_of [acme 0 (Some today_noon);
                               bistro 0 (Some today_noon)]
                              [acme_key true])
                    eq_refl eq_refl in
         conj (proj1 H) (proj1 (proj2 H))).
Defined.
